(** * webauthn-rp: attestation dispatcher, dual enumerations, registrar contract

    A shallow embedding of [webauthn_rp/types.py], [webauthn_rp/attesters.py]
    and [webauthn_rp/registrars.py].  Python values that the code inspects at
    run time (the argument of a dual enumeration, the operands of [+]) are
    kept dynamic; records follow the classes of [types.py]; exceptions are
    explicit results; calls into the [cryptography] package are recorded in a
    trace so that "no cryptographic work" is a statement about that trace. *)

From Stdlib Require Import ZArith Lia Ascii String.
From stdpp Require Import base strings gmap list pretty.

Local Open Scope Z_scope.
Local Open Scope string_scope.

(** Python's [bytes]. *)
Abbreviation bytes := (list Byte.byte).

Global Instance byte_eq_dec : EqDecision Byte.byte := Byte.byte_eq_dec.

(* ===================================================================== *)
(** ** Python values, exceptions and results *)
(* ===================================================================== *)

(** The exception classes that can leave the modelled code: the four kinds
    of [webauthn_rp.errors] and the built-in ones raised by the interpreter
    or by [enum]. [LibraryError] stands for whatever else the [cryptography]
    package raises (malformed PEM, unsupported algorithm object). *)
Inductive exn_kind :=
| UnimplementedError | ValidationError | AttestationError | VerificationError
| KeyError | ValueError | TypeError | AttributeError | IndexError
| LibraryError.

Global Instance exn_kind_eq_dec : EqDecision exn_kind.
Proof. solve_decision. Defined.

Record exn := Exn { exn_kind_of : exn_kind; exn_message : string }.

(** The four documented error kinds of the library. *)
Definition documented_kind (k : exn_kind) : bool :=
  match k with
  | UnimplementedError | ValidationError
  | AttestationError | VerificationError => true
  | _ => false
  end.

Inductive result (A : Type) :=
| Ok (a : A)
| Raise (e : exn).
Arguments Ok {A} a.
Arguments Raise {A} e.

Global Instance result_ret : MRet result := @Ok.
Global Instance result_bind : MBind result := λ A B f m,
  match m with Ok a => f a | Raise e => Raise e end.

Definition raise {A} (k : exn_kind) (msg : string) : result A :=
  Raise (Exn k msg).

(** Dynamic values. [PyObject t s] is an instance of any other class: [t]
    is its type name and [s] the text [str()] gives for it. *)
Inductive pyval :=
| PyNone
| PyBool (b : bool)
| PyInt (z : Z)
| PyStr (s : string)
| PyBytes (b : bytes)
| PyObject (type_name : string) (text : string).

Definition py_type_name (v : pyval) : string :=
  match v with
  | PyNone => "NoneType"
  | PyBool _ => "bool"
  | PyInt _ => "int"
  | PyStr _ => "str"
  | PyBytes _ => "bytes"
  | PyObject t _ => t
  end.

(** [type(v) is int] and [type(v) is str]: exact type tests, so a [bool]
    is not an [int] here although [isinstance(True, int)] holds. *)
Definition type_is_int (v : pyval) : bool :=
  match v with PyInt _ => true | _ => false end.
Definition type_is_str (v : pyval) : bool :=
  match v with PyStr _ => true | _ => false end.

Definition hex_digit (n : N) : ascii :=
  match n with
  | 0 => "0" | 1 => "1" | 2 => "2" | 3 => "3" | 4 => "4" | 5 => "5"
  | 6 => "6" | 7 => "7" | 8 => "8" | 9 => "9" | 10 => "a" | 11 => "b"
  | 12 => "c" | 13 => "d" | 14 => "e" | _ => "f"
  end%N%char.

(** [repr] of one byte inside a bytes literal quoted with [q]. *)
Definition byte_repr (q : ascii) (b : Byte.byte) : string :=
  let n := Byte.to_N b in
  let c := ascii_of_byte b in
  if (n =? 9)%N then "\t"
  else if (n =? 10)%N then "\n"
  else if (n =? 13)%N then "\r"
  else if (n =? 92)%N then "\\"
  else if Ascii.eqb c q then String "\" (String c "")
  else if ((n <? 32) || (127 <=? n))%N
       then String "\" (String "x" (String (hex_digit (n / 16))
                                   (String (hex_digit (n mod 16)) "")))
  else String c "".

Definition bytes_repr (b : bytes) : string :=
  let has c := existsb (fun x => Ascii.eqb (ascii_of_byte x) c) b in
  let dq := ascii_of_N 34 in
  let q := if has "'"%char && negb (has dq) then dq else "'"%char in
  String "b" (String q (String.concat "" (map (byte_repr q) b) ++ String q "")).

(** [str(v)], as used by [str.format]. *)
Definition py_str (v : pyval) : string :=
  match v with
  | PyNone => "None"
  | PyBool true => "True"
  | PyBool false => "False"
  | PyInt z => pretty z
  | PyStr s => s
  | PyBytes b => bytes_repr b
  | PyObject _ s => s
  end.

(** [==] between hashable values, as dictionary lookup uses it: [bool] is
    a subtype of [int] and compares numerically; values of unrelated types
    differ; other objects compare by identity, which no literal key has. *)
Definition py_eqb (a b : pyval) : bool :=
  match a, b with
  | PyNone, PyNone => true
  | PyBool x, PyBool y => Bool.eqb x y
  | PyInt x, PyInt y => (x =? y)%Z
  | PyBool x, PyInt y | PyInt y, PyBool x => (Z.b2z x =? y)%Z
  | PyStr x, PyStr y => String.eqb x y
  | PyBytes x, PyBytes y => bool_decide (x = y)
  | _, _ => false
  end.

(* ===================================================================== *)
(** ** [enum.Enum] and the [NameValueEnumsContainer] metaclass *)
(* ===================================================================== *)

(** An [Enum] class: its qualified name and its members in definition
    order, each an identifier and a value. *)
Record EnumClass := {
  enum_qualname : string;
  enum_members : list (string * pyval)
}.

(** A member knows its class, its identifier ([.name]) and its
    value ([.value]). *)
Record EnumMember := {
  em_enum : string;
  em_name : string;
  em_value : pyval
}.

Global Instance pyval_eq_dec : EqDecision pyval.
Proof. solve_decision. Defined.
Global Instance EnumMember_eq_dec : EqDecision EnumMember.
Proof. solve_decision. Defined.

Definition member_of (E : EnumClass) (m : string * pyval) : EnumMember :=
  {| em_enum := enum_qualname E; em_name := m.1; em_value := m.2 |}.

(** [E(v)]: lookup by value; [ValueError] when no member has it. For the
    exceptions [enum] raises, the message kept is the offending value. *)
Definition enum_call (E : EnumClass) (v : pyval) : result EnumMember :=
  match List.find (fun m => py_eqb v m.2) (enum_members E) with
  | Some m => Ok (member_of E m)
  | None =>
      raise ValueError (py_str v)
  end.

(** [E[k]]: lookup of [k] in [_member_map_], whose keys are the member
    identifiers; [KeyError], carrying the key, when there is no such key. *)
Definition enum_getitem (E : EnumClass) (k : pyval) : result EnumMember :=
  match List.find (fun m => py_eqb k (PyStr m.1)) (enum_members E) with
  | Some m => Ok (member_of E m)
  | None => raise KeyError (py_str k)
  end.

(** A class whose metaclass is [NameValueEnumsContainer]: it holds the two
    nested enumerations [Name] and [Value]. *)
Record NameValueEnum := {
  Name : EnumClass;
  Value : EnumClass
}.

Module NameValueEnumsContainer.

(** [NameValueEnumsContainer.__call__]. *)
Definition __call__ (cls : NameValueEnum) (value : pyval)
  : result EnumMember :=
  if type_is_int value then enum_call (Value cls) value
  else if type_is_str value then enum_call (Name cls) value
  else raise KeyError ("Invalid key " ++ py_str value).

(** [NameValueEnumsContainer.__getitem__]. *)
Definition __getitem__ (cls : NameValueEnum) (value : pyval)
  : result EnumMember :=
  if type_is_int value then enum_getitem (Value cls) value
  else if type_is_str value then enum_getitem (Name cls) value
  else raise KeyError ("Invalid key " ++ py_str value).

End NameValueEnumsContainer.

Definition COSEAlgorithmIdentifier : NameValueEnum := {|
  Name := {| enum_qualname := "COSEAlgorithmIdentifier.Name";
             enum_members := [("ES256", PyStr "ES256");
                              ("ES384", PyStr "ES384");
                              ("ES512", PyStr "ES512");
                              ("EDDSA", PyStr "EdDSA")] |};
  Value := {| enum_qualname := "COSEAlgorithmIdentifier.Value";
              enum_members := [("ES256", PyInt (-7));
                               ("ES384", PyInt (-35));
                               ("ES512", PyInt (-36));
                               ("EDDSA", PyInt (-8))] |}
|}.

Definition COSEKeyType : NameValueEnum := {|
  Name := {| enum_qualname := "COSEKeyType.Name";
             enum_members := [("OKP", PyStr "OKP");
                              ("EC2", PyStr "EC2");
                              ("SYMMETRIC", PyStr "Symmetric")] |};
  Value := {| enum_qualname := "COSEKeyType.Value";
              enum_members := [("OKP", PyInt 1);
                               ("EC2", PyInt 2);
                               ("SYMMETRIC", PyInt 4)] |}
|}.

Definition COSEKeyOperation : NameValueEnum := {|
  Name := {| enum_qualname := "COSEKeyOperation.Name";
             enum_members := [("SIGN", PyStr "sign");
                              ("VERIFY", PyStr "verify");
                              ("ENCRYPT", PyStr "encrypt");
                              ("DECRYPT", PyStr "decrypt");
                              ("WRAP_KEY", PyStr "wrap key");
                              ("UNWRAP_KEY", PyStr "unwrap key");
                              ("DERIVE_KEY", PyStr "derive key");
                              ("DERIVE_BITS", PyStr "derive bits");
                              ("MAC_CREATE", PyStr "MAC create");
                              ("MAC_VERIFY", PyStr "MAC verify")] |};
  Value := {| enum_qualname := "COSEKeyOperation.Value";
              enum_members := [("SIGN", PyInt 1);
                               ("VERIFY", PyInt 2);
                               ("ENCRYPT", PyInt 3);
                               ("DECRYPT", PyInt 4);
                               ("WRAP_KEY", PyInt 5);
                               ("UNWRAP_KEY", PyInt 6);
                               ("DERIVE_KEY", PyInt 7);
                               ("DERIVE_BITS", PyInt 8);
                               ("MAC_CREATE", PyInt 9);
                               ("MAC_VERIFY", PyInt 10)] |}
|}.

Definition EC2KeyType : NameValueEnum := {|
  Name := {| enum_qualname := "EC2KeyType.Name";
             enum_members := [("P_256", PyStr "P-256");
                              ("P_384", PyStr "P-384");
                              ("P_521", PyStr "P-521")] |};
  Value := {| enum_qualname := "EC2KeyType.Value";
              enum_members := [("P_256", PyInt 1);
                               ("P_384", PyInt 2);
                               ("P_521", PyInt 3)] |}
|}.

Definition OKPKeyType : NameValueEnum := {|
  Name := {| enum_qualname := "OKPKeyType.Name";
             enum_members := [("ED25519", PyStr "Ed25519");
                              ("ED448", PyStr "Ed448")] |};
  Value := {| enum_qualname := "OKPKeyType.Value";
              enum_members := [("ED25519", PyInt 6);
                               ("ED448", PyInt 7)] |}
|}.

(** The five dual name/value enumerations of [types.py]. *)
Definition dual_enums : list NameValueEnum :=
  [COSEAlgorithmIdentifier; COSEKeyType; COSEKeyOperation;
   EC2KeyType; OKPKeyType].

(** The logical members of a dual enumeration: identifier, symbolic name
    (the value in [Name]) and registry code (the value in [Value]), read
    off the two nested classes by identifier. *)
Definition logical_members (cls : NameValueEnum)
  : list (string * pyval * pyval) :=
  omap (fun m : string * pyval =>
          match List.find (fun v : string * pyval => String.eqb v.1 m.1)
                          (enum_members (Value cls)) with
          | Some v => Some (m.1, m.2, v.2)
          | None => None
          end)
       (enum_members (Name cls)).

(* ===================================================================== *)
(** ** Data model of [types.py] read by the attestation verifier *)
(* ===================================================================== *)

Module AttestationType.
Inductive t := BASIC | ATTCA | ECDAA | SELF | NONE | UNCERTAIN.
End AttestationType.

Module AttestationStatementFormatIdentifier.
Inductive t := PACKED | TPM | ANDROID_KEY | ANDROID_SAFETYNET | FIDO_U2F | NONE.
End AttestationStatementFormatIdentifier.

(** Objects of the [cryptography] package: named curves, public keys and
    parsed certificates. A certificate object is identified by its DER
    encoding; what it contains is the package's business. *)
Inductive Curve := SECP256R1 | SECP384R1 | SECP521R1 | OtherCurve (name : string).

Inductive PublicKeyObject :=
| EllipticCurvePublicKey (curve : Curve) (x y : bytes)
| Ed25519PublicKey (raw : bytes)
| Ed448PublicKey (raw : bytes)
| RSAPublicKey (n e : Z)
| OtherPublicKey (type_name : string).

Record Certificate := { cert_der : bytes }.

(** An element of [x5c]. The constructors annotate it [Sequence[bytes]] and
    [attest_fido_u2f] parses it as PEM bytes, while [attest_android_key]
    calls [.public_key()] on it, which only a certificate object has; both
    kinds of element are therefore kept. *)
Inductive x5c_item :=
| X5cBytes (pem : bytes)
| X5cCertificate (c : Certificate).

(** The fields of [CredentialPublicKey.__init__]; enumeration-typed fields
    hold a member of the [Name] or of the [Value] table. *)
Record COSEKeyFields := {
  kty : EnumMember;
  kid : option bytes;
  key_alg : option EnumMember;
  key_ops : option (list EnumMember);
  base_IV : option bytes
}.

Inductive CredentialPublicKey :=
| BaseCredentialPublicKey (f : COSEKeyFields)
| EC2CredentialPublicKey (f : COSEKeyFields) (x y : bytes) (crv : EnumMember)
| OKPCredentialPublicKey (f : COSEKeyFields) (crv : EnumMember) (x : bytes).

Record AttestedCredentialData := {
  aaguid : bytes;
  credential_id_length : Z;
  credential_id : bytes;
  credential_public_key : option CredentialPublicKey;
  extensions : option pyval
}.

Record AuthenticatorData := {
  rp_id_hash : bytes;
  flags : Z;
  sign_count : Z;
  attested_credential_data : option AttestedCredentialData
}.

(** The classes of the attestation-statement hierarchy. *)
Inductive StmtClass :=
| AttestationStatement_cls
| PackedAttestationStatement_cls
| PackedX509AttestationStatement_cls
| PackedECDAAAttestationStatement_cls
| TPMAttestationStatement_cls
| TPMX509AttestationStatement_cls
| TPMECDAAAttestationStatement_cls
| AndroidKeyAttestationStatement_cls
| AndroidSafetyNetAttestationStatement_cls
| FIDOU2FAttestationStatement_cls
| NoneAttestationStatement_cls.

Global Instance StmtClass_eq_dec : EqDecision StmtClass.
Proof. solve_decision. Defined.

Definition class_name (c : StmtClass) : string :=
  match c with
  | AttestationStatement_cls => "AttestationStatement"
  | PackedAttestationStatement_cls => "PackedAttestationStatement"
  | PackedX509AttestationStatement_cls => "PackedX509AttestationStatement"
  | PackedECDAAAttestationStatement_cls => "PackedECDAAAttestationStatement"
  | TPMAttestationStatement_cls => "TPMAttestationStatement"
  | TPMX509AttestationStatement_cls => "TPMX509AttestationStatement"
  | TPMECDAAAttestationStatement_cls => "TPMECDAAAttestationStatement"
  | AndroidKeyAttestationStatement_cls => "AndroidKeyAttestationStatement"
  | AndroidSafetyNetAttestationStatement_cls =>
      "AndroidSafetyNetAttestationStatement"
  | FIDOU2FAttestationStatement_cls => "FIDOU2FAttestationStatement"
  | NoneAttestationStatement_cls => "NoneAttestationStatement"
  end.

(** The base named in each [class] statement; [None] is [object]. *)
Definition base_class (c : StmtClass) : option StmtClass :=
  match c with
  | AttestationStatement_cls => None
  | PackedAttestationStatement_cls => Some AttestationStatement_cls
  | PackedX509AttestationStatement_cls => Some PackedAttestationStatement_cls
  | PackedECDAAAttestationStatement_cls => Some PackedAttestationStatement_cls
  | TPMAttestationStatement_cls => Some AttestationStatement_cls
  | TPMX509AttestationStatement_cls => Some TPMAttestationStatement_cls
  | TPMECDAAAttestationStatement_cls => Some TPMAttestationStatement_cls
  | AndroidKeyAttestationStatement_cls => Some AttestationStatement_cls
  | AndroidSafetyNetAttestationStatement_cls => Some AttestationStatement_cls
  | FIDOU2FAttestationStatement_cls => Some AttestationStatement_cls
  | NoneAttestationStatement_cls => Some AttestationStatement_cls
  end.

(** Method resolution order below [object]; the hierarchy is three deep. *)
Fixpoint mro_upto (depth : nat) (c : StmtClass) : list StmtClass :=
  c :: match depth, base_class c with
       | S d, Some p => mro_upto d p
       | _, _ => []
       end.

Definition mro (c : StmtClass) : list StmtClass := mro_upto 3 c.

(** Attestation statements, one constructor per class with the attributes
    its [__init__] chain sets. *)
Inductive AttestationStatement :=
| BaseAttestationStatement (alg : option EnumMember) (sig : option bytes)
| PackedAttestationStatement (alg : option EnumMember) (sig : option bytes)
| PackedX509AttestationStatement
    (alg : option EnumMember) (sig : option bytes) (x5c : list x5c_item)
| PackedECDAAAttestationStatement
    (alg : option EnumMember) (sig : option bytes) (ecdaa_key_id : bytes)
| TPMAttestationStatement
    (alg : option EnumMember) (sig : option bytes)
    (ver : string) (cert_info pub_area : bytes)
| TPMX509AttestationStatement
    (alg : option EnumMember) (sig : option bytes)
    (ver : string) (cert_info pub_area : bytes) (x5c : list x5c_item)
| TPMECDAAAttestationStatement
    (alg : option EnumMember) (sig : option bytes)
    (ver : string) (cert_info pub_area : bytes) (ecdaa_key_id : bytes)
| AndroidKeyAttestationStatement
    (alg : option EnumMember) (sig : option bytes) (x5c : list x5c_item)
| AndroidSafetyNetAttestationStatement
    (alg : option EnumMember) (sig : option bytes)
    (ver : string) (response : bytes)
| FIDOU2FAttestationStatement
    (alg : option EnumMember) (sig : option bytes) (x5c : list x5c_item)
| NoneAttestationStatement (alg : option EnumMember) (sig : option bytes).

(** [type(att_stmt)]. *)
Definition type_of (s : AttestationStatement) : StmtClass :=
  match s with
  | BaseAttestationStatement _ _ => AttestationStatement_cls
  | PackedAttestationStatement _ _ => PackedAttestationStatement_cls
  | PackedX509AttestationStatement _ _ _ => PackedX509AttestationStatement_cls
  | PackedECDAAAttestationStatement _ _ _ =>
      PackedECDAAAttestationStatement_cls
  | TPMAttestationStatement _ _ _ _ _ => TPMAttestationStatement_cls
  | TPMX509AttestationStatement _ _ _ _ _ _ => TPMX509AttestationStatement_cls
  | TPMECDAAAttestationStatement _ _ _ _ _ _ =>
      TPMECDAAAttestationStatement_cls
  | AndroidKeyAttestationStatement _ _ _ => AndroidKeyAttestationStatement_cls
  | AndroidSafetyNetAttestationStatement _ _ _ _ =>
      AndroidSafetyNetAttestationStatement_cls
  | FIDOU2FAttestationStatement _ _ _ => FIDOU2FAttestationStatement_cls
  | NoneAttestationStatement _ _ => NoneAttestationStatement_cls
  end.

(** [str(type(att_stmt))]. *)
Definition type_str (c : StmtClass) : string :=
  "<class 'webauthn_rp.types." ++ class_name c ++ "'>".

Module AttestationObject.
Record t := {
  auth_data : AuthenticatorData;
  fmt : AttestationStatementFormatIdentifier.t;
  att_stmt : AttestationStatement
}.
End AttestationObject.

(** *** Attribute access *)

Definition no_attribute {A} (type_name attr : string) : result A :=
  raise AttributeError
    ("'" ++ type_name ++ "' object has no attribute '" ++ attr ++ "'").

(** [att_stmt.alg], [att_stmt.sig]: set by [AttestationStatement.__init__]
    for every class. *)
Definition stmt_alg (s : AttestationStatement) : option EnumMember :=
  match s with
  | BaseAttestationStatement a _ | PackedAttestationStatement a _
  | PackedX509AttestationStatement a _ _
  | PackedECDAAAttestationStatement a _ _
  | TPMAttestationStatement a _ _ _ _ | TPMX509AttestationStatement a _ _ _ _ _
  | TPMECDAAAttestationStatement a _ _ _ _ _
  | AndroidKeyAttestationStatement a _ _
  | AndroidSafetyNetAttestationStatement a _ _ _
  | FIDOU2FAttestationStatement a _ _ | NoneAttestationStatement a _ => a
  end.

Definition stmt_sig (s : AttestationStatement) : option bytes :=
  match s with
  | BaseAttestationStatement _ g | PackedAttestationStatement _ g
  | PackedX509AttestationStatement _ g _
  | PackedECDAAAttestationStatement _ g _
  | TPMAttestationStatement _ g _ _ _ | TPMX509AttestationStatement _ g _ _ _ _
  | TPMECDAAAttestationStatement _ g _ _ _ _
  | AndroidKeyAttestationStatement _ g _
  | AndroidSafetyNetAttestationStatement _ g _ _
  | FIDOU2FAttestationStatement _ g _ | NoneAttestationStatement _ g => g
  end.

(** [att_stmt.x5c]. *)
Definition stmt_x5c (s : AttestationStatement) : result (list x5c_item) :=
  match s with
  | PackedX509AttestationStatement _ _ l
  | TPMX509AttestationStatement _ _ _ _ _ l
  | AndroidKeyAttestationStatement _ _ l
  | FIDOU2FAttestationStatement _ _ l => Ok l
  | _ => no_attribute (class_name (type_of s)) "x5c"
  end.

(** [v.credential_public_key] for [v] of type
    [Optional[AttestedCredentialData]]. *)
Definition get_credential_public_key (v : option AttestedCredentialData)
  : result (option CredentialPublicKey) :=
  match v with
  | Some a => Ok (credential_public_key a)
  | None => no_attribute "NoneType" "credential_public_key"
  end.

Definition cpk_class_name (k : CredentialPublicKey) : string :=
  match k with
  | BaseCredentialPublicKey _ => "CredentialPublicKey"
  | EC2CredentialPublicKey _ _ _ _ => "EC2CredentialPublicKey"
  | OKPCredentialPublicKey _ _ _ => "OKPCredentialPublicKey"
  end.

(** [k.x] and [k.y] for [k] of type [Optional[CredentialPublicKey]]. *)
Definition get_x (k : option CredentialPublicKey) : result bytes :=
  match k with
  | Some (EC2CredentialPublicKey _ x _ _) => Ok x
  | Some (OKPCredentialPublicKey _ _ x) => Ok x
  | Some k' => no_attribute (cpk_class_name k') "x"
  | None => no_attribute "NoneType" "x"
  end.

Definition get_y (k : option CredentialPublicKey) : result bytes :=
  match k with
  | Some (EC2CredentialPublicKey _ _ y _) => Ok y
  | Some k' => no_attribute (cpk_class_name k') "y"
  | None => no_attribute "NoneType" "y"
  end.

(** [m.name] for [m] of type [Optional[<enum member>]]. *)
Definition get_name (m : option EnumMember) : result string :=
  match m with
  | Some m' => Ok (em_name m')
  | None => no_attribute "NoneType" "name"
  end.

(** [bytes.__add__]: concatenation with another bytes value; no modelled
    class defines [__radd__], so any other right operand is a [TypeError]. *)
Definition bytes_add (a : bytes) (b : pyval) : result bytes :=
  match b with
  | PyBytes b' => Ok (a ++ b')%list
  | _ => raise TypeError ("can't concat " ++ py_type_name b ++ " to bytes")
  end.

(** An [AttestedCredentialData] instance seen as an operand. *)
Definition acd_value (v : option AttestedCredentialData) : pyval :=
  match v with
  | Some _ =>
      PyObject "AttestedCredentialData"
               "<webauthn_rp.types.AttestedCredentialData object>"
  | None => PyNone
  end.

(** [seq[0]]. *)
Definition index0 {A} (seq : list A) : result A :=
  match seq with
  | a :: _ => Ok a
  | [] => raise IndexError "index out of range"
  end.

(** [bytes.fromhex] on a two-digit literal. *)
Definition fromhex_04 : bytes := [Byte.x04].
Definition fromhex_00 : bytes := [Byte.x00].

(* ===================================================================== *)
(** ** The [cryptography] package and the converter *)
(* ===================================================================== *)

Inductive HashAlgorithm := SHA256 | SHA384 | SHA512.

(** The third argument of [verify] as the code passes it: an instance
    ([SHA256()]), the class itself ([SHA256]), or nothing. *)
Inductive hash_arg :=
| HashInstance (h : HashAlgorithm)
| HashClass (h : HashAlgorithm)
| NoHashArg.

(** What a call of [verify] does: return, raise
    [cryptography.exceptions.InvalidSignature], or raise something else. *)
Inductive verify_outcome :=
| Verified
| InvalidSignature
| VerifyRaises (e : exn).

(** The behaviour of the external functions the verifier calls. The first
    four belong to the [cryptography] package ([!=] on key objects is the
    package's comparison); [cryptography_public_key] is the converter of
    [webauthn_rp.converters], which the verifier imports. *)
Class Cryptography := {
  load_pem_x509_certificate : x5c_item → result Certificate;
  public_key : Certificate → result PublicKeyObject;
  verify : PublicKeyObject → option bytes → bytes → hash_arg → verify_outcome;
  public_key_ne : PublicKeyObject → PublicKeyObject → bool;
  cryptography_public_key : option CredentialPublicKey → result PublicKeyObject
}.

(** One entry per call that leaves the verifier. *)
Inductive lib_call :=
| Call_load_pem_x509_certificate (data : x5c_item)
| Call_public_key (c : Certificate)
| Call_verify (k : PublicKeyObject) (sig : option bytes) (data : bytes)
              (h : hash_arg)
| Call_cryptography_public_key (k : option CredentialPublicKey).

Definition is_verify (c : lib_call) : bool :=
  match c with Call_verify _ _ _ _ => true | _ => false end.

(** Computations of the verifier: a result together with the calls made so
    far, which are kept when an exception is raised. *)
Record M (A : Type) := MkM { runM : list lib_call → result A * list lib_call }.
Arguments MkM {A} _.
Arguments runM {A} _ _.

Global Instance M_ret : MRet M := λ A a, MkM (λ tr, (Ok a, tr)).
Global Instance M_bind : MBind M := λ A B f m,
  MkM (λ tr, match runM m tr with
             | (Ok a, tr') => runM (f a) tr'
             | (Raise e, tr') => (Raise e, tr')
             end).

Definition lift {A} (r : result A) : M A := MkM (λ tr, (r, tr)).
Definition throw {A} (k : exn_kind) (msg : string) : M A :=
  lift (raise k msg).
Definition call {A} (c : lib_call) (r : result A) : M A :=
  MkM (λ tr, (r, (tr ++ [c])%list)).

(** Outcome and trace of a computation started with no call made. *)
Definition run {A} (m : M A) : result A * list lib_call := runM m [].

(** [isinstance(k, EllipticCurvePublicKey)]. *)
Definition isinstance_EllipticCurvePublicKey (k : PublicKeyObject) : bool :=
  match k with EllipticCurvePublicKey _ _ _ => true | _ => false end.

(** [k.curve]. *)
Definition get_curve (k : PublicKeyObject) : result Curve :=
  match k with
  | EllipticCurvePublicKey c _ _ => Ok c
  | Ed25519PublicKey _ => no_attribute "Ed25519PublicKey" "curve"
  | Ed448PublicKey _ => no_attribute "Ed448PublicKey" "curve"
  | RSAPublicKey _ _ => no_attribute "RSAPublicKey" "curve"
  | OtherPublicKey t => no_attribute t "curve"
  end.

(** [isinstance(c, SECP256R1)]. *)
Definition isinstance_SECP256R1 (c : Curve) : bool :=
  match c with SECP256R1 => true | _ => false end.

(** [c.public_key()] for an element [c] of [x5c]. *)
Definition item_public_key {crypto : Cryptography} (c : x5c_item)
  : M PublicKeyObject :=
  match c with
  | X5cCertificate cert => call (Call_public_key cert) (public_key cert)
  | X5cBytes _ => lift (no_attribute "bytes" "public_key")
  end.

(** [k.verify(sig, data, h)] inside [try ... except InvalidSignature]. *)
Definition verify_or {crypto : Cryptography} (msg : string) (k : PublicKeyObject)
    (sig : option bytes) (data : bytes) (h : hash_arg) : M unit :=
  call (Call_verify k sig data h)
       (match verify k sig data h with
        | Verified => Ok tt
        | InvalidSignature => raise VerificationError msg
        | VerifyRaises e => Raise e
        end).

(* ===================================================================== *)
(** ** [attesters.py] *)
(* ===================================================================== *)

(** What a call of [attest] hands back: the pair of the annotation, or
    [None] when the body ends without a [return]. *)
Inductive attest_return :=
| ReturnPair (t : AttestationType.t) (trusted_path : option (list Certificate))
| ReturnNone.

(** The default implementation of the [singledispatch] function. *)
Definition attest_default {crypto : Cryptography} (att_stmt : AttestationStatement)
    (att_obj : AttestationObject.t) (auth_data client_data_hash : bytes)
  : M attest_return :=
  throw UnimplementedError
        (type_str (type_of att_stmt) ++ " verification unimplemented").

Definition attest_fido_u2f {crypto : Cryptography} (att_stmt : AttestationStatement)
    (att_obj : AttestationObject.t) (auth_data client_data_hash : bytes)
  : M attest_return :=
  x5c ← lift (stmt_x5c att_stmt);
  if negb (length x5c =? 1)%nat then
    throw ValidationError
      "FIDO U2F verification failed: must have a single X.509 certificate"
  else
  att_cert ← lift (index0 x5c);
  att_cert_x509 ← call (Call_load_pem_x509_certificate att_cert)
                       (load_pem_x509_certificate att_cert);
  att_cert_x509_pk ← call (Call_public_key att_cert_x509)
                          (public_key att_cert_x509);
  if negb (isinstance_EllipticCurvePublicKey att_cert_x509_pk) then
    throw ValidationError
      "FIDO U2F verification failed: must use an Elliptic Curve Public Key"
  else
  curve ← lift (get_curve att_cert_x509_pk);
  if negb (isinstance_SECP256R1 curve) then
    throw ValidationError
      "FIDO U2F verification failed: must use an Elliptic Curve Public Key"
  else
  credential_public_key ←
    lift (get_credential_public_key
            (attested_credential_data (AttestationObject.auth_data att_obj)));
  x ← lift (get_x credential_public_key);
  y ← lift (get_y credential_public_key);
  xy ← lift (bytes_add x (PyBytes y));
  public_key_u2f ← lift (bytes_add fromhex_04 (PyBytes xy));
  let rp_id_hash := rp_id_hash (AttestationObject.auth_data att_obj) in
  let credential_id :=
    attested_credential_data (AttestationObject.auth_data att_obj) in
  l ← lift (bytes_add fromhex_00 (PyBytes rp_id_hash));
  r ← lift (bytes_add client_data_hash (acd_value credential_id));
  r ← lift (bytes_add r (PyBytes public_key_u2f));
  verification_data ← lift (bytes_add l (PyBytes r));
  _ ← verify_or "FIDO U2F verification failed: invalid signature"
        att_cert_x509_pk (stmt_sig att_stmt) verification_data
        (HashInstance SHA256);
  mret (ReturnPair AttestationType.UNCERTAIN (Some [att_cert_x509])).

Definition attest_android_key {crypto : Cryptography} (att_stmt : AttestationStatement)
    (att_obj : AttestationObject.t) (auth_data client_data_hash : bytes)
  : M attest_return :=
  x5c ← lift (stmt_x5c att_stmt);
  if (length x5c =? 0)%nat then
    throw ValidationError "Must have at least 1 X509 certificate"
  else
  credential_certificate ← lift (index0 x5c);
  cred_cert_pk ← item_public_key credential_certificate;
  name ← lift (get_name (stmt_alg att_stmt));
  hash_algorithm ←
    (if String.eqb name "ES256" then mret (Some SHA256)
     else if String.eqb name "ES384" then mret (Some SHA384)
     else if String.eqb name "ES512" then mret (Some SHA512)
     else if negb (String.eqb name "EDDSA") then
       throw ValidationError ("Unsupported hashing algorithm " ++ name)
     else mret None);
  verification_data ← lift (bytes_add auth_data (PyBytes client_data_hash));
  _ ← verify_or "Android Key verification failed: invalid signature"
        cred_cert_pk (stmt_sig att_stmt) verification_data
        (match hash_algorithm with
         | Some h => HashClass h
         | None => NoHashArg
         end);
  k ← lift (get_credential_public_key
              (attested_credential_data (AttestationObject.auth_data att_obj)));
  cpk ← call (Call_cryptography_public_key k) (cryptography_public_key k);
  if public_key_ne cpk cred_cert_pk then
    throw ValidationError
      ("Certificate public key in attestation statement must match the "
       ++ "provided credential public key")
  else mret ReturnNone.

Definition attest_none {crypto : Cryptography} (att_stmt : AttestationStatement)
    (att_obj : AttestationObject.t) (auth_data client_data_hash : bytes)
  : M attest_return :=
  mret (ReturnPair AttestationType.NONE None).

(** The functions registered with [@attest.register]. *)
Inductive implementation :=
| impl_attest_fido_u2f | impl_attest_android_key | impl_attest_none.

Definition registry (c : StmtClass) : option implementation :=
  match c with
  | FIDOU2FAttestationStatement_cls => Some impl_attest_fido_u2f
  | AndroidKeyAttestationStatement_cls => Some impl_attest_android_key
  | NoneAttestationStatement_cls => Some impl_attest_none
  | _ => None
  end.

(** [singledispatch]: the implementation registered for the first class of
    the argument's method resolution order that has one; the decorated
    function itself, registered for [object], otherwise. *)
Definition dispatch (c : StmtClass) : option implementation :=
  list_find (λ c', is_Some (registry c')) (mro c) ≫= λ p, registry p.2.

Definition attest {crypto : Cryptography} (att_stmt : AttestationStatement)
    (att_obj : AttestationObject.t) (auth_data client_data_hash : bytes)
  : M attest_return :=
  match dispatch (type_of att_stmt) with
  | Some impl_attest_fido_u2f =>
      attest_fido_u2f att_stmt att_obj auth_data client_data_hash
  | Some impl_attest_android_key =>
      attest_android_key att_stmt att_obj auth_data client_data_hash
  | Some impl_attest_none =>
      attest_none att_stmt att_obj auth_data client_data_hash
  | None => attest_default att_stmt att_obj auth_data client_data_hash
  end.

(** [isinstance(att_stmt, c)]. *)
Definition isinstance (s : AttestationStatement) (c : StmtClass) : bool :=
  bool_decide (c ∈ mro (type_of s)).

(* ===================================================================== *)
(** ** Construction of attestation statements: the [__init__] chain *)
(* ===================================================================== *)

(** A [def] header: the positional parameters ([self]) and, after the bare
    [*], the keyword-only ones with their defaults. *)
Record signature := {
  positional : list string;
  keyword_only : list (string * option pyval)
}.

Definition required (names : list string) : list (string * option pyval) :=
  map (λ n, (n, None)) names.

(** Binding of the arguments of a call to the parameters of a function, as
    the interpreter does it: keywords are matched first, then the number of
    positional arguments is checked, then missing parameters are reported
    or defaulted. Every failure is a [TypeError]. *)
Definition bind_arguments (s : signature) (args : list pyval)
    (kwargs : gmap string pyval) : result (gmap string pyval) :=
  let given := take (length args) (positional s) in
  let names := (positional s ++ (keyword_only s).*1)%list in
  match List.filter (λ k, negb (bool_decide (k ∈ names)))
                    (map_to_list kwargs).*1 with
  | k :: _ =>
      raise TypeError
        ("__init__() got an unexpected keyword argument '" ++ k ++ "'")
  | [] =>
  match List.filter (λ k, bool_decide (k ∈ given)) (map_to_list kwargs).*1 with
  | k :: _ =>
      raise TypeError
        ("__init__() got multiple values for argument '" ++ k ++ "'")
  | [] =>
  if bool_decide (length (positional s) < length args)%nat then
    raise TypeError
      ("__init__() takes " ++ pretty (length (positional s))
       ++ (if (length (positional s) =? 1)%nat
           then " positional argument but "
           else " positional arguments but ")
       ++ pretty (length args) ++ " were given")
  else
  let bound : gmap string pyval :=
    list_to_map (zip (positional s) args) ∪ kwargs in
  match List.filter (λ k, negb (bool_decide (k ∈ dom bound)))
                    (positional s) with
  | k :: _ =>
      raise TypeError
        ("__init__() missing required positional argument: '" ++ k ++ "'")
  | [] =>
  match List.filter (λ p : string * option pyval,
                       negb (bool_decide (p.1 ∈ dom bound))
                       && negb (bool_decide (is_Some p.2)))
                    (keyword_only s) with
  | p :: _ =>
      raise TypeError
        ("__init__() missing required keyword-only argument: '"
         ++ p.1 ++ "'")
  | [] =>
      Ok (bound ∪ list_to_map
                    (omap (λ p : string * option pyval,
                             (λ d, (p.1, d)) <$> p.2)
                          (keyword_only s)))
  end end end end.

(** An object under construction: its class and the attributes set so
    far. *)
Record instance := {
  inst_class : StmtClass;
  inst_attrs : gmap string pyval
}.

Definition self_value (self : instance) : pyval :=
  PyObject (class_name (inst_class self))
           ("<webauthn_rp.types." ++ class_name (inst_class self)
            ++ " object>").

(** [self.name = v]. *)
Definition setattr (name : string) (v : pyval) (self : instance) : instance :=
  {| inst_class := inst_class self;
     inst_attrs := <[name := v]> (inst_attrs self) |}.

(** The value bound to a parameter. *)
Definition arg (b : gmap string pyval) (name : string) : pyval :=
  default PyNone (b !! name).

(** The keyword arguments [n=n, ...] of a [super().__init__] call. *)
Definition pass (b : gmap string pyval) (names : list string)
  : gmap string pyval :=
  list_to_map (map (λ n, (n, arg b n)) names).

(** Each [__init__] receives [self], the further positional arguments of
    the call and its keyword arguments. *)
Definition AttestationStatement_init (self : instance) (args : list pyval)
    (kwargs : gmap string pyval) : result instance :=
  b ← bind_arguments
        {| positional := ["self"];
           keyword_only := [("alg", Some PyNone); ("sig", Some PyNone)] |}
        (self_value self :: args) kwargs;
  Ok (setattr "sig" (arg b "sig") (setattr "alg" (arg b "alg") self)).

Definition PackedAttestationStatement_init (self : instance)
    (args : list pyval) (kwargs : gmap string pyval) : result instance :=
  b ← bind_arguments
        {| positional := ["self"]; keyword_only := required ["alg"; "sig"] |}
        (self_value self :: args) kwargs;
  AttestationStatement_init self [] (pass b ["alg"; "sig"]).

Definition PackedX509AttestationStatement_init (self : instance)
    (args : list pyval) (kwargs : gmap string pyval) : result instance :=
  b ← bind_arguments
        {| positional := ["self"];
           keyword_only := required ["alg"; "sig"; "x5c"] |}
        (self_value self :: args) kwargs;
  self ← PackedAttestationStatement_init self [] (pass b ["alg"; "sig"]);
  Ok (setattr "x5c" (arg b "x5c") self).

Definition PackedECDAAAttestationStatement_init (self : instance)
    (args : list pyval) (kwargs : gmap string pyval) : result instance :=
  b ← bind_arguments
        {| positional := ["self"];
           keyword_only := required ["alg"; "sig"; "ecdaa_key_id"] |}
        (self_value self :: args) kwargs;
  self ← PackedAttestationStatement_init self [] (pass b ["alg"; "sig"]);
  Ok (setattr "ecdaa_key_id" (arg b "ecdaa_key_id") self).

Definition TPMAttestationStatement_init (self : instance)
    (args : list pyval) (kwargs : gmap string pyval) : result instance :=
  b ← bind_arguments
        {| positional := ["self"];
           keyword_only :=
             required ["alg"; "sig"; "ver"; "cert_info"; "pub_area"] |}
        (self_value self :: args) kwargs;
  self ← AttestationStatement_init self [] (pass b ["alg"; "sig"]);
  Ok (setattr "pub_area" (arg b "pub_area")
        (setattr "cert_info" (arg b "cert_info")
           (setattr "ver" (arg b "ver") self))).

(** The two TPM subtypes call [super().__init__(self, alg=alg, ...)]: the
    bound method already supplies [self], and [self] is passed again. *)
Definition TPMX509AttestationStatement_init (self : instance)
    (args : list pyval) (kwargs : gmap string pyval) : result instance :=
  b ← bind_arguments
        {| positional := ["self"];
           keyword_only :=
             required ["alg"; "sig"; "ver"; "cert_info"; "pub_area"; "x5c"] |}
        (self_value self :: args) kwargs;
  self ← TPMAttestationStatement_init self [self_value self]
           (pass b ["alg"; "sig"; "ver"; "cert_info"; "pub_area"]);
  Ok (setattr "x5c" (arg b "x5c") self).

Definition TPMECDAAAttestationStatement_init (self : instance)
    (args : list pyval) (kwargs : gmap string pyval) : result instance :=
  b ← bind_arguments
        {| positional := ["self"];
           keyword_only :=
             required ["alg"; "sig"; "ver"; "cert_info"; "pub_area";
                       "ecdaa_key_id"] |}
        (self_value self :: args) kwargs;
  self ← TPMAttestationStatement_init self [self_value self]
           (pass b ["alg"; "sig"; "ver"; "cert_info"; "pub_area"]);
  Ok (setattr "ecdaa_key_id" (arg b "ecdaa_key_id") self).

Definition AndroidKeyAttestationStatement_init (self : instance)
    (args : list pyval) (kwargs : gmap string pyval) : result instance :=
  b ← bind_arguments
        {| positional := ["self"];
           keyword_only := required ["alg"; "sig"; "x5c"] |}
        (self_value self :: args) kwargs;
  self ← AttestationStatement_init self [] (pass b ["alg"; "sig"]);
  Ok (setattr "x5c" (arg b "x5c") self).

Definition AndroidSafetyNetAttestationStatement_init (self : instance)
    (args : list pyval) (kwargs : gmap string pyval) : result instance :=
  b ← bind_arguments
        {| positional := ["self"];
           keyword_only := required ["alg"; "sig"; "ver"; "response"] |}
        (self_value self :: args) kwargs;
  self ← AttestationStatement_init self [] (pass b ["alg"; "sig"]);
  Ok (setattr "response" (arg b "response")
        (setattr "ver" (arg b "ver") self)).

Definition FIDOU2FAttestationStatement_init (self : instance)
    (args : list pyval) (kwargs : gmap string pyval) : result instance :=
  b ← bind_arguments
        {| positional := ["self"];
           keyword_only := required ["alg"; "sig"; "x5c"] |}
        (self_value self :: args) kwargs;
  self ← AttestationStatement_init self [] (pass b ["alg"; "sig"]);
  Ok (setattr "x5c" (arg b "x5c") self).

(** The [__init__] a class defines or inherits. *)
Definition init_of (c : StmtClass)
  : instance → list pyval → gmap string pyval → result instance :=
  match c with
  | AttestationStatement_cls => AttestationStatement_init
  | PackedAttestationStatement_cls => PackedAttestationStatement_init
  | PackedX509AttestationStatement_cls => PackedX509AttestationStatement_init
  | PackedECDAAAttestationStatement_cls =>
      PackedECDAAAttestationStatement_init
  | TPMAttestationStatement_cls => TPMAttestationStatement_init
  | TPMX509AttestationStatement_cls => TPMX509AttestationStatement_init
  | TPMECDAAAttestationStatement_cls => TPMECDAAAttestationStatement_init
  | AndroidKeyAttestationStatement_cls => AndroidKeyAttestationStatement_init
  | AndroidSafetyNetAttestationStatement_cls =>
      AndroidSafetyNetAttestationStatement_init
  | FIDOU2FAttestationStatement_cls => FIDOU2FAttestationStatement_init
  | NoneAttestationStatement_cls => AttestationStatement_init
  end.

(** A call of the class [C] with positional and keyword arguments: a fresh
    instance, then [C.__init__]. *)
Definition construct (c : StmtClass) (args : list pyval)
    (kwargs : gmap string pyval) : result instance :=
  init_of c {| inst_class := c; inst_attrs := ∅ |} args kwargs.

(* ===================================================================== *)
(** ** [registrars.py] *)
(* ===================================================================== *)

Record CredentialData := {
  cd_credential_public_key : CredentialPublicKey;
  signature_count : Z;
  user_entity : option pyval;
  rp_entity : option pyval
}.

(** The methods of the base class [CredentialsRegistrar]. Ceremony options,
    credentials and entities are opaque to them and kept dynamic. *)
Module CredentialsRegistrar.

Definition register_creation_options (options : pyval) : result bool :=
  raise UnimplementedError "Must implement register_creation_options".

Definition register_request_options (options : pyval) : result bool :=
  raise UnimplementedError "Must implement register_request_options".

Definition register_credential_creation (credential : pyval)
    (att : AttestationObject.t) (att_type : AttestationType.t)
    (user rp : pyval) (trusted_path : option (list Certificate))
  : result bool :=
  raise UnimplementedError "Must implement register_credential_creation".

Definition register_credential_request (credential : pyval)
    (authenticator_data : AuthenticatorData) (user rp : pyval)
  : result bool :=
  raise UnimplementedError "Must implement register_credential_request".

Definition get_credential_data (credential_id : bytes)
  : result (option CredentialData) :=
  raise UnimplementedError "Must implement get_credential_data".

Definition check_user_owns_credential (user_handle credential_id : bytes)
  : result (option bool) :=
  raise UnimplementedError "Must implement check_user_owns_credential".

(** A call of one of the six operations with its arguments. *)
Inductive operation :=
| Register_creation_options (options : pyval)
| Register_request_options (options : pyval)
| Register_credential_creation (credential : pyval)
    (att : AttestationObject.t) (att_type : AttestationType.t)
    (user rp : pyval) (trusted_path : option (list Certificate))
| Register_credential_request (credential : pyval)
    (authenticator_data : AuthenticatorData) (user rp : pyval)
| Get_credential_data (credential_id : bytes)
| Check_user_owns_credential (user_handle credential_id : bytes).

(** The method name of an operation. *)
Definition operation_name (op : operation) : string :=
  match op with
  | Register_creation_options _ => "register_creation_options"
  | Register_request_options _ => "register_request_options"
  | Register_credential_creation _ _ _ _ _ _ => "register_credential_creation"
  | Register_credential_request _ _ _ _ => "register_credential_request"
  | Get_credential_data _ => "get_credential_data"
  | Check_user_owns_credential _ _ => "check_user_owns_credential"
  end.

Definition raised {A} (r : result A) : option exn :=
  match r with Ok _ => None | Raise e => Some e end.

(** The exception, if any, that performing the operation on an instance of
    the base class raises. *)
Definition perform (op : operation) : option exn :=
  match op with
  | Register_creation_options o => raised (register_creation_options o)
  | Register_request_options o => raised (register_request_options o)
  | Register_credential_creation c a t u r p =>
      raised (register_credential_creation c a t u r p)
  | Register_credential_request c d u r =>
      raised (register_credential_request c d u r)
  | Get_credential_data i => raised (get_credential_data i)
  | Check_user_owns_credential h i => raised (check_user_owns_credential h i)
  end.

End CredentialsRegistrar.

(* ===================================================================== *)
(** ** A test double of the external interface, and sample inputs *)
(* ===================================================================== *)

Global Instance Curve_eq_dec : EqDecision Curve.
Proof. solve_decision. Defined.
Global Instance PublicKeyObject_eq_dec : EqDecision PublicKeyObject.
Proof. solve_decision. Defined.

(** A stand-in for the external functions, used to run the verifier on
    concrete inputs: a PEM blob parses to the certificate with those bytes;
    every certificate carries the P-256 key whose [x] is its encoding; a
    signature is valid exactly when it equals the signed data; keys differ
    when they are structurally different; the converter builds keys as
    section 4.4 of the specification describes. *)
Definition sample_converter (k : option CredentialPublicKey)
  : result PublicKeyObject :=
  match k with
  | Some (EC2CredentialPublicKey _ x y crv) =>
      if String.eqb (em_name crv) "P_256"
      then Ok (EllipticCurvePublicKey SECP256R1 x y)
      else if String.eqb (em_name crv) "P_384"
      then Ok (EllipticCurvePublicKey SECP384R1 x y)
      else if String.eqb (em_name crv) "P_521"
      then Ok (EllipticCurvePublicKey SECP521R1 x y)
      else raise ValidationError "Unsupported EC2 curve"
  | Some (OKPCredentialPublicKey _ crv x) =>
      if String.eqb (em_name crv) "ED25519" then Ok (Ed25519PublicKey x)
      else if String.eqb (em_name crv) "ED448" then Ok (Ed448PublicKey x)
      else raise ValidationError "Unsupported OKP curve"
  | _ => raise ValidationError "Unsupported credential public key type"
  end.

Definition sample_crypto : Cryptography := {|
  load_pem_x509_certificate := λ d,
    match d with
    | X5cBytes pem => Ok {| cert_der := pem |}
    | X5cCertificate _ => raise TypeError "data must be bytes"
    end;
  public_key := λ c, Ok (EllipticCurvePublicKey SECP256R1 (cert_der c) []);
  verify := λ k sig data h,
    if bool_decide (sig = Some data) then Verified else InvalidSignature;
  public_key_ne := λ a b, negb (bool_decide (a = b));
  cryptography_public_key := sample_converter
|}.

Definition ES256_name : EnumMember :=
  {| em_enum := "COSEAlgorithmIdentifier.Name";
     em_name := "ES256"; em_value := PyStr "ES256" |}.
Definition EC2_value : EnumMember :=
  {| em_enum := "COSEKeyType.Value"; em_name := "EC2"; em_value := PyInt 2 |}.
Definition P_256_value : EnumMember :=
  {| em_enum := "EC2KeyType.Value"; em_name := "P_256"; em_value := PyInt 1 |}.

Definition sample_pem : bytes := [Byte.x2d; Byte.x2d; Byte.x43].

Definition sample_key : CredentialPublicKey :=
  EC2CredentialPublicKey
    {| kty := EC2_value; kid := None; key_alg := Some ES256_name;
       key_ops := None; base_IV := None |}
    sample_pem [] P_256_value.

Definition sample_credential (k : option CredentialPublicKey)
  : AttestedCredentialData :=
  {| aaguid := [Byte.x00]; credential_id_length := 2;
     credential_id := [Byte.xc1; Byte.xd2];
     credential_public_key := k; extensions := None |}.

Definition sample_object (s : AttestationStatement)
    (f : AttestationStatementFormatIdentifier.t)
    (c : option AttestedCredentialData) : AttestationObject.t :=
  {| AttestationObject.auth_data :=
       {| rp_id_hash := [Byte.xaa; Byte.xbb]; flags := 65; sign_count := 0;
          attested_credential_data := c |};
     AttestationObject.fmt := f;
     AttestationObject.att_stmt := s |}.

Definition sample_auth_data : bytes := [Byte.xaa; Byte.xbb; Byte.x41].
Definition sample_client_data_hash : bytes := [Byte.x5f; Byte.x60].

Definition sample_fido_u2f : AttestationStatement :=
  FIDOU2FAttestationStatement (Some ES256_name) (Some [Byte.x30])
                              [X5cBytes sample_pem].

Definition sample_android_key : AttestationStatement :=
  AndroidKeyAttestationStatement
    (Some ES256_name)
    (Some (sample_auth_data ++ sample_client_data_hash)%list)
    [X5cCertificate {| cert_der := sample_pem |}].

Definition sample_packed : AttestationStatement :=
  PackedX509AttestationStatement (Some ES256_name) (Some [Byte.x30])
                                 [X5cBytes sample_pem].

(** The library calls the FIDO-U2F verifier makes for a single PEM
    certificate up to the point where it builds the payload. *)
Definition parsed_trace (pem : bytes) (cert : Certificate) : list lib_call :=
  [Call_load_pem_x509_certificate (X5cBytes pem); Call_public_key cert].

(** A second stand-in: every certificate carries the key [k], and [verify]
    always ends in [v]. *)
Definition stub_crypto (k : PublicKeyObject) (v : verify_outcome)
  : Cryptography := {|
  load_pem_x509_certificate := λ d,
    match d with
    | X5cBytes pem => Ok {| cert_der := pem |}
    | X5cCertificate _ => raise TypeError "data must be bytes"
    end;
  public_key := λ _, Ok k;
  verify := λ _ _ _ _, v;
  public_key_ne := λ a b, negb (bool_decide (a = b));
  cryptography_public_key := sample_converter
|}.

Definition OKP_name : EnumMember :=
  {| em_enum := "COSEKeyType.Name"; em_name := "OKP"; em_value := PyStr "OKP" |}.
Definition ED25519_value : EnumMember :=
  {| em_enum := "OKPKeyType.Value"; em_name := "ED25519";
     em_value := PyInt 6 |}.

Definition sample_okp_key : CredentialPublicKey :=
  OKPCredentialPublicKey
    {| kty := OKP_name; kid := None; key_alg := None;
       key_ops := None; base_IV := None |}
    ED25519_value sample_pem.

Definition sample_certificate : Certificate := {| cert_der := sample_pem |}.

(** The third argument of [verify] that [attest_android_key] selects for
    each algorithm name it accepts: the hash class for the three ECDSA
    names, no argument for [EDDSA]. *)
Definition android_key_hash_args : list (string * hash_arg) :=
  [("ES256", HashClass SHA256); ("ES384", HashClass SHA384);
   ("ES512", HashClass SHA512); ("EDDSA", NoHashArg)].

(** The message of the last check of [attest_android_key]. *)
Definition android_mismatch_message : string :=
  "Certificate public key in attestation statement must match the "
  ++ "provided credential public key".

(** *** [AuthenticatorDataFlag] *)

(** The masks as [types.py] writes them, with shifts and bitwise or. *)
Definition AuthenticatorDataFlag_masks : list (string * Z) :=
  [("UP", Z.shiftl 1 0);
   ("RFU1", Z.shiftl 1 1);
   ("UV", Z.shiftl 1 2);
   ("RFU2", Z.lor (Z.lor (Z.shiftl 1 3) (Z.shiftl 1 4)) (Z.shiftl 1 5));
   ("AT", Z.shiftl 1 6);
   ("ED", Z.shiftl 1 7)].

Definition AuthenticatorDataFlag : EnumClass := {|
  enum_qualname := "AuthenticatorDataFlag";
  enum_members := map (λ m : string * Z, (m.1, PyInt m.2))
                      AuthenticatorDataFlag_masks
|}.

(** The part of a flags byte selected by each mask, in definition order. *)
Definition flag_parts (flags : Z) : list Z :=
  map (λ m : string * Z, Z.land flags m.2) AuthenticatorDataFlag_masks.

(** *** Signatures of the [__init__] methods *)

(** The header of the [__init__] that each class of the statement
    hierarchy defines or inherits. *)
Definition signature_of (c : StmtClass) : signature :=
  {| positional := ["self"];
     keyword_only :=
       match c with
       | AttestationStatement_cls | NoneAttestationStatement_cls =>
           [("alg", Some PyNone); ("sig", Some PyNone)]
       | PackedAttestationStatement_cls => required ["alg"; "sig"]
       | PackedX509AttestationStatement_cls =>
           required ["alg"; "sig"; "x5c"]
       | PackedECDAAAttestationStatement_cls =>
           required ["alg"; "sig"; "ecdaa_key_id"]
       | TPMAttestationStatement_cls =>
           required ["alg"; "sig"; "ver"; "cert_info"; "pub_area"]
       | TPMX509AttestationStatement_cls =>
           required ["alg"; "sig"; "ver"; "cert_info"; "pub_area"; "x5c"]
       | TPMECDAAAttestationStatement_cls =>
           required ["alg"; "sig"; "ver"; "cert_info"; "pub_area";
                     "ecdaa_key_id"]
       | AndroidKeyAttestationStatement_cls => required ["alg"; "sig"; "x5c"]
       | AndroidSafetyNetAttestationStatement_cls =>
           required ["alg"; "sig"; "ver"; "response"]
       | FIDOU2FAttestationStatement_cls => required ["alg"; "sig"; "x5c"]
       end |}.

(** The keyword parameters of a class, and those without a default. *)
Definition keywords (c : StmtClass) : list string :=
  (keyword_only (signature_of c)).*1.

Definition required_keywords (c : StmtClass) : list string :=
  (List.filter (λ p : string * option pyval, negb (bool_decide (is_Some p.2)))
               (keyword_only (signature_of c))).*1.

(** Keyword arguments [n = vals n] for the names [names]. *)
Definition keyword_arguments (names : list string) (vals : string → pyval)
  : gmap string pyval :=
  list_to_map (map (λ n, (n, vals n)) names).

(** The two classes whose [__init__] passes [self] twice. *)
Definition is_TPM_subtype (c : StmtClass) : bool :=
  match c with
  | TPMX509AttestationStatement_cls | TPMECDAAAttestationStatement_cls => true
  | _ => false
  end.

(* ===================================================================== *)
(** * Properties *)
(* ===================================================================== *)

(** Case analysis on membership in a literal list. *)
Ltac elem_cases H :=
  repeat (apply elem_of_cons in H; destruct H as [H | H];
          [try (inversion H; clear H); subst |]);
  try (apply elem_of_nil in H; destruct H).

(** ** Dual name/value enumerations *)

Section DualEnums.
Import NameValueEnumsContainer.

(** No member identifier equals an integer key, so [E[z]] finds nothing. *)
Lemma enum_getitem_int (E : EnumClass) (z : Z) :
  enum_getitem E (PyInt z) = raise KeyError (pretty z).
Proof.
  unfold enum_getitem.
  assert (Hnone : ∀ l : list (string * pyval),
             List.find (λ m, py_eqb (PyInt z) (PyStr m.1)) l = None).
  { induction l as [| m l IH]; simpl; [reflexivity | exact IH]. }
  rewrite Hnone. reflexivity.
Qed.

(** Indexing a dual enumeration with an integer never succeeds: the
    [int] branch of [__getitem__] indexes the [Value] class, and indexing
    an [Enum] class goes by member identifier. *)
Lemma getitem_int_KeyError (cls : NameValueEnum) (z : Z) :
  __getitem__ cls (PyInt z) = raise KeyError (pretty z).
Proof. unfold __getitem__. simpl. apply enum_getitem_int. Qed.

(** The example of the specification, [COSEAlgorithmIdentifier[-7]]. *)
Lemma getitem_ES256_code :
  __getitem__ COSEAlgorithmIdentifier (PyInt (-7)) = raise KeyError "-7".
Proof. reflexivity. Qed.

(** A boolean equals a registry code as far as [==] goes: the [Value]
    class itself would accept it. *)
Lemma Value_accepts_bool :
  enum_call (Value COSEKeyType) (PyBool true)
  = Ok {| em_enum := "COSEKeyType.Value"; em_name := "OKP";
          em_value := PyInt 1 |}.
Proof. reflexivity. Qed.

(** C3, as stated, fails: [EDDSA] is a member of [COSEAlgorithmIdentifier]
    whose symbolic name in the table of section 3.3 is "EdDSA", and
    indexing with that name raises [KeyError], because indexing goes by the
    member identifier ([EDDSA]) and not by the name string. *)
Lemma index_by_symbolic_name_fails :
  COSEAlgorithmIdentifier ∈ dual_enums
  ∧ ("EDDSA", PyStr "EdDSA", PyInt (-8))
      ∈ logical_members COSEAlgorithmIdentifier
  ∧ __getitem__ COSEAlgorithmIdentifier (PyStr "EdDSA")
    = raise KeyError "EdDSA"
  ∧ ¬ ∃ m, __getitem__ COSEAlgorithmIdentifier (PyStr "EdDSA") = Ok m.
Proof.
  split; [| split; [| split]].
  - apply list_elem_of_here.
  - vm_compute. do 3 apply list_elem_of_further. apply list_elem_of_here.
  - reflexivity.
  - intros [m Hm]. discriminate Hm.
Qed.

(** C3 (amended): for every member of the five dual enumerations, calling
    the enumeration with the member's symbolic name string and calling it
    with the numeric registry code both succeed, and indexing it with the
    member's identifier succeeds; the name paths give the member of the
    [Name] table, the code path the member of the [Value] table, and all of
    them carry the same identifier, i.e. denote the same logical member. *)
Theorem dual_enum_lookup (cls : NameValueEnum) (ident : string)
    (name code : pyval) :
  cls ∈ dual_enums →
  (ident, name, code) ∈ logical_members cls →
  ∃ by_name by_code : EnumMember,
    type_is_str name = true ∧ type_is_int code = true
    ∧ __call__ cls name = Ok by_name
    ∧ __call__ cls code = Ok by_code
    ∧ __getitem__ cls (PyStr ident) = Ok by_name
    ∧ em_name by_name = ident ∧ em_value by_name = name
    ∧ em_name by_code = ident ∧ em_value by_code = code.
Proof.
  intros Hcls Hm.
  elem_cases Hcls; vm_compute in Hm; elem_cases Hm;
    eexists; eexists; repeat split; reflexivity.
Qed.

Lemma dual_enum_lookup_witness :
  COSEKeyOperation ∈ dual_enums
  ∧ ("WRAP_KEY", PyStr "wrap key", PyInt 5)
      ∈ logical_members COSEKeyOperation
  ∧ ∃ by_name by_code : EnumMember,
      type_is_str (PyStr "wrap key") = true ∧ type_is_int (PyInt 5) = true
      ∧ __call__ COSEKeyOperation (PyStr "wrap key") = Ok by_name
      ∧ __call__ COSEKeyOperation (PyInt 5) = Ok by_code
      ∧ __getitem__ COSEKeyOperation (PyStr "WRAP_KEY") = Ok by_name
      ∧ em_name by_name = "WRAP_KEY" ∧ em_value by_name = PyStr "wrap key"
      ∧ em_name by_code = "WRAP_KEY" ∧ em_value by_code = PyInt 5.
Proof.
  assert (Hcls : COSEKeyOperation ∈ dual_enums).
  { vm_compute. do 2 apply list_elem_of_further. apply list_elem_of_here. }
  assert (Hm : ("WRAP_KEY", PyStr "wrap key", PyInt 5)
                 ∈ logical_members COSEKeyOperation).
  { vm_compute. do 4 apply list_elem_of_further. apply list_elem_of_here. }
  split; [exact Hcls | split; [exact Hm |]].
  exact (dual_enum_lookup COSEKeyOperation "WRAP_KEY" (PyStr "wrap key")
                          (PyInt 5) Hcls Hm).
Defined.

(** Indexing with the symbolic name string works exactly for the members
    whose name string is their identifier. *)
Lemma getitem_symbolic_name_iff (cls : NameValueEnum) (ident name : string)
    (code : pyval) :
  cls ∈ dual_enums →
  (ident, PyStr name, code) ∈ logical_members cls →
  (∃ m, __getitem__ cls (PyStr name) = Ok m) ↔ name = ident.
Proof.
  intros Hcls Hm.
  elem_cases Hcls; vm_compute in Hm; elem_cases Hm;
    (split; [intros [m Hx]; first [reflexivity | discriminate Hx]
            | intros Hx; first [discriminate Hx
                               | eexists; reflexivity]]).
Qed.

(** C9: for every dual name/value enumeration and every boolean, calling
    and indexing with that boolean both raise the invalid-key [KeyError]:
    the tests [type(value) is int] and [type(value) is str] are both false
    for a [bool]. *)
Theorem dual_enum_rejects_bool (cls : NameValueEnum) (b : bool) :
  __call__ cls (PyBool b)
  = Raise (Exn KeyError ("Invalid key " ++ (if b then "True" else "False")))
  ∧ __getitem__ cls (PyBool b)
    = Raise (Exn KeyError ("Invalid key " ++ (if b then "True" else "False")))
  ∧ type_is_int (PyBool b) = false ∧ type_is_str (PyBool b) = false.
Proof. destruct b; repeat split; reflexivity. Qed.

End DualEnums.

(** ** The attestation dispatcher *)

Section Attest.
Context `{crypto : Cryptography}.

Implicit Types (att_stmt : AttestationStatement) (att_obj : AttestationObject.t)
  (auth_data client_data_hash : bytes) (alg : option EnumMember)
  (sig : option bytes) (x5c : list x5c_item).

(** The registered implementations are reached exactly by their classes:
    no class of the hierarchy derives from a registered one. *)
Lemma dispatch_registered (c : StmtClass) (i : implementation) :
  dispatch c = Some i ↔ registry c = Some i.
Proof. destruct c, i; vm_compute; split; congruence. Qed.

Lemma isinstance_registered att_stmt (c : StmtClass) :
  is_Some (registry c) →
  isinstance att_stmt c = true ↔ type_of att_stmt = c.
Proof.
  intros [i Hi]. unfold isinstance.
  destruct (type_of att_stmt), c; try discriminate Hi;
    vm_compute; split; congruence.
Qed.

Lemma attest_FIDOU2F alg sig x5c att_obj auth_data client_data_hash :
  attest (FIDOU2FAttestationStatement alg sig x5c) att_obj auth_data
         client_data_hash
  = attest_fido_u2f (FIDOU2FAttestationStatement alg sig x5c) att_obj
                    auth_data client_data_hash.
Proof. reflexivity. Qed.

(** With the attested credential data and an EC2 credential key present,
    building the payload fails: [credential_id] is bound to the attested
    credential data object, which cannot be concatenated to bytes. *)
Lemma attest_fido_u2f_payload_TypeError alg sig (pem : bytes)
    (cert : Certificate) (x y : bytes) att_obj (a : AttestedCredentialData)
    (f : COSEKeyFields) (kx ky : bytes) (crv : EnumMember)
    auth_data client_data_hash :
  load_pem_x509_certificate (X5cBytes pem) = Ok cert →
  public_key cert = Ok (EllipticCurvePublicKey SECP256R1 x y) →
  attested_credential_data (AttestationObject.auth_data att_obj) = Some a →
  credential_public_key a = Some (EC2CredentialPublicKey f kx ky crv) →
  run (attest (FIDOU2FAttestationStatement alg sig [X5cBytes pem]) att_obj
              auth_data client_data_hash)
  = (Raise (Exn TypeError "can't concat AttestedCredentialData to bytes"),
     parsed_trace pem cert).
Proof.
  intros Hload Hpk Hacd Hkey. rewrite attest_FIDOU2F.
  unfold run, attest_fido_u2f. simpl.
  rewrite Hload. simpl. rewrite Hpk. simpl. rewrite Hacd. simpl.
  rewrite Hkey. reflexivity.
Qed.

(** On a FIDO-U2F statement the verifier never returns and never reaches
    the signature check, whatever the library does. *)
Lemma attest_fido_u2f_never_verifies alg sig x5c att_obj auth_data
    client_data_hash :
  ∃ e tr,
    run (attest (FIDOU2FAttestationStatement alg sig x5c) att_obj auth_data
                client_data_hash) = (Raise e, tr)
    ∧ forallb (λ c, negb (is_verify c)) tr = true.
Proof.
  rewrite attest_FIDOU2F. unfold run, attest_fido_u2f. simpl.
  destruct x5c as [| c [| c' l]]; simpl;
    [eexists _, _; split; reflexivity | | eexists _, _; split; reflexivity].
  destruct (load_pem_x509_certificate c) as [cert | e]; simpl;
    [| eexists _, _; split; reflexivity].
  destruct (public_key cert) as [k | e]; simpl;
    [| eexists _, _; split; reflexivity].
  destruct k as [cv kx ky | | | |]; simpl;
    try (eexists _, _; split; reflexivity).
  destruct cv; simpl; try (eexists _, _; split; reflexivity).
  destruct (attested_credential_data (AttestationObject.auth_data att_obj))
    as [a |]; simpl; [| eexists _, _; split; reflexivity].
  destruct (credential_public_key a) as [[f | f ex ey crv | f crv ex] |];
    simpl; eexists _, _; split; reflexivity.
Qed.

(** Whenever the Android-Key verifier completes, it hands back [None]. *)
Lemma attest_android_key_completes alg sig x5c att_obj auth_data
    client_data_hash (r : attest_return) (tr : list lib_call) :
  run (attest (AndroidKeyAttestationStatement alg sig x5c) att_obj auth_data
              client_data_hash) = (Ok r, tr) →
  r = ReturnNone.
Proof.
  change (attest (AndroidKeyAttestationStatement alg sig x5c) att_obj
                 auth_data client_data_hash)
    with (attest_android_key (AndroidKeyAttestationStatement alg sig x5c)
                             att_obj auth_data client_data_hash).
  unfold run, attest_android_key, verify_or, item_public_key. simpl.
  intros Hrun.
  repeat (simpl in Hrun;
          match type of Hrun with
          | context [match ?d with _ => _ end] => destruct d eqn:?
          | context [if ?d then _ else _] => destruct d eqn:?
          end);
    unfold throw, lift, raise, no_attribute in Hrun; simpl in Hrun;
    congruence.
Qed.

(** The calls of [attest] that complete: a None statement yields the pair
    [(NONE, None)]; an Android-Key statement yields no pair at all; no
    other statement completes. *)
Lemma attest_completes_cases att_stmt att_obj auth_data client_data_hash
    (r : attest_return) (tr : list lib_call) :
  run (attest att_stmt att_obj auth_data client_data_hash) = (Ok r, tr) →
  (type_of att_stmt = NoneAttestationStatement_cls
   ∧ r = ReturnPair AttestationType.NONE None)
  ∨ (type_of att_stmt = AndroidKeyAttestationStatement_cls
     ∧ r = ReturnNone).
Proof.
  intros Hrun. destruct att_stmt;
    try (vm_compute in Hrun; discriminate Hrun).
  - right. split; [reflexivity |].
    eapply attest_android_key_completes, Hrun.
  - destruct (attest_fido_u2f_never_verifies alg sig x5c att_obj auth_data
                client_data_hash) as (e & tr' & Hfail & _).
    rewrite Hfail in Hrun. discriminate Hrun.
  - left. split; [reflexivity |]. vm_compute in Hrun. congruence.
Qed.

(** C4: for every attestation statement that is not an instance of
    [FIDOU2FAttestationStatement], [AndroidKeyAttestationStatement] or
    [NoneAttestationStatement], [attest] raises [UnimplementedError] with
    the message naming the concrete class of the statement, and makes no
    library call before doing so. *)
Theorem attest_unregistered_unimplemented att_stmt att_obj auth_data
    client_data_hash :
  isinstance att_stmt FIDOU2FAttestationStatement_cls = false →
  isinstance att_stmt AndroidKeyAttestationStatement_cls = false →
  isinstance att_stmt NoneAttestationStatement_cls = false →
  run (attest att_stmt att_obj auth_data client_data_hash)
  = (Raise (Exn UnimplementedError
              ("<class 'webauthn_rp.types." ++ class_name (type_of att_stmt)
               ++ "'> verification unimplemented")),
     []).
Proof.
  intros Hf Ha Hn.
  destruct att_stmt;
    first [discriminate Hf | discriminate Ha | discriminate Hn | reflexivity].
Qed.

(** C6: for every FIDO-U2F statement whose [x5c] does not hold exactly one
    certificate, [attest] raises [ValidationError], and it has made no
    library call by then: nothing was parsed and no signature checked. *)
Theorem attest_fido_u2f_certificate_count alg sig x5c att_obj auth_data
    client_data_hash :
  length x5c ≠ 1%nat →
  run (attest (FIDOU2FAttestationStatement alg sig x5c) att_obj auth_data
              client_data_hash)
  = (Raise (Exn ValidationError
              ("FIDO U2F verification failed: "
               ++ "must have a single X.509 certificate")),
     []).
Proof.
  intros Hlen. rewrite attest_FIDOU2F. unfold run, attest_fido_u2f. simpl.
  destruct x5c as [| c [| c' l]]; simpl in *;
    [reflexivity | contradiction Hlen; reflexivity | reflexivity].
Qed.

(** C7: for every None statement and all values of the attestation
    object, the authenticator-data bytes and the client-data hash,
    [attest] returns exactly [(AttestationType.NONE, None)] and makes no
    library call; two calls that differ only in those three arguments
    behave alike. *)
Theorem attest_none_returns_NONE alg sig att_obj auth_data client_data_hash
    (att_obj' : AttestationObject.t) (auth_data' client_data_hash' : bytes) :
  run (attest (NoneAttestationStatement alg sig) att_obj auth_data
              client_data_hash)
  = (Ok (ReturnPair AttestationType.NONE None), [])
  ∧ run (attest (NoneAttestationStatement alg sig) att_obj auth_data
                client_data_hash)
    = run (attest (NoneAttestationStatement alg sig) att_obj' auth_data'
                  client_data_hash').
Proof. split; reflexivity. Qed.

(** C10: for every FIDO-U2F statement with exactly one PEM certificate that
    parses to a P-256 key, when the attested credential data of the
    attestation object is absent, or present with an absent credential
    public key, [attest] raises [AttributeError] on the absent value, which
    is none of the four documented error kinds; presence is never
    checked. *)
Theorem attest_fido_u2f_absent_credential alg sig (pem : bytes)
    (cert : Certificate) (x y : bytes) att_obj auth_data client_data_hash :
  load_pem_x509_certificate (X5cBytes pem) = Ok cert →
  public_key cert = Ok (EllipticCurvePublicKey SECP256R1 x y) →
  (attested_credential_data (AttestationObject.auth_data att_obj) = None
   ∨ ∃ a, attested_credential_data (AttestationObject.auth_data att_obj)
          = Some a
          ∧ credential_public_key a = None) →
  ∃ attr : string,
    run (attest (FIDOU2FAttestationStatement alg sig [X5cBytes pem]) att_obj
                auth_data client_data_hash)
    = (Raise (Exn AttributeError
                ("'NoneType' object has no attribute '" ++ attr ++ "'")),
       parsed_trace pem cert)
    ∧ documented_kind AttributeError = false.
Proof.
  intros Hload Hpk Habsent. rewrite attest_FIDOU2F.
  unfold run, attest_fido_u2f. simpl.
  rewrite Hload. simpl. rewrite Hpk. simpl.
  destruct Habsent as [Hacd | (a & Hacd & Hkey)]; rewrite Hacd; simpl.
  - exists "credential_public_key". split; reflexivity.
  - rewrite Hkey. exists "x". split; reflexivity.
Qed.

End Attest.

(** C1, on the code: on a FIDO-U2F statement with one PEM certificate
    holding a P-256 key, and an attestation object with attested credential
    data and an EC2 credential key, [attest] does not verify the signature
    over [0x00 || rp_id_hash || client_data_hash || credential_id ||
    0x04 || x || y]: it raises [TypeError] while building the payload,
    after parsing the certificate and before any call of [verify]. *)
Theorem attest_fido_u2f_sample_TypeError :
  run (attest (crypto := sample_crypto) sample_fido_u2f
         (sample_object sample_fido_u2f
            AttestationStatementFormatIdentifier.FIDO_U2F
            (Some (sample_credential (Some sample_key))))
         sample_auth_data sample_client_data_hash)
  = (Raise (Exn TypeError "can't concat AttestedCredentialData to bytes"),
     parsed_trace sample_pem {| cert_der := sample_pem |})
  ∧ forallb (λ c, negb (is_verify c))
            (parsed_trace sample_pem {| cert_der := sample_pem |}) = true.
Proof.
  split; [| reflexivity].
  eapply (attest_fido_u2f_payload_TypeError (crypto := sample_crypto));
    reflexivity.
Qed.

(** C2, on the code: on an Android-Key statement whose certificate key
    verifies the signature and equals the converted credential key,
    [attest] completes and hands back [None], not a pair of an attestation
    type and a trust path. *)
Theorem attest_android_key_sample_returns_None :
  ∃ tr : list lib_call,
    run (attest (crypto := sample_crypto) sample_android_key
           (sample_object sample_android_key
              AttestationStatementFormatIdentifier.ANDROID_KEY
              (Some (sample_credential (Some sample_key))))
           sample_auth_data sample_client_data_hash)
    = (Ok ReturnNone, tr)
    ∧ ∀ (t : AttestationType.t) (p : option (list Certificate)),
        ReturnNone ≠ ReturnPair t p.
Proof.
  eexists. split; [vm_compute; reflexivity | intros t p; discriminate].
Qed.

(** ** Construction of the TPM statements *)

(** Argument binding fails with [TypeError] and nothing else. *)
Lemma bind_arguments_TypeError (s : signature) (args : list pyval)
    (kwargs : gmap string pyval) (e : exn) :
  bind_arguments s args kwargs = Raise e → exn_kind_of e = TypeError.
Proof.
  unfold bind_arguments, raise. intros Hb.
  repeat match type of Hb with
         | context [match ?d with _ => _ end] => destruct d
         end;
    inversion Hb; reflexivity.
Qed.

(** More positional arguments than parameters never bind. *)
Lemma bind_arguments_excess (s : signature) (args : list pyval)
    (kwargs : gmap string pyval) :
  (length (positional s) < length args)%nat →
  ∃ msg, bind_arguments s args kwargs = Raise (Exn TypeError msg).
Proof.
  intros Hlen. unfold bind_arguments, raise.
  destruct (List.filter _ (map_to_list kwargs).*1); [| eexists; reflexivity].
  destruct (List.filter _ (map_to_list kwargs).*1); [| eexists; reflexivity].
  rewrite bool_decide_eq_true_2 by exact Hlen. eexists; reflexivity.
Qed.

(** [TPMAttestationStatement.__init__] takes [self] and keywords only: a
    call that passes one more positional argument fails, whatever the
    keywords. *)
Lemma TPMAttestationStatement_init_extra_positional (self : instance)
    (extra : pyval) (kwargs : gmap string pyval) :
  ∃ msg, TPMAttestationStatement_init self [extra] kwargs
         = Raise (Exn TypeError msg).
Proof.
  unfold TPMAttestationStatement_init.
  destruct (bind_arguments_excess
              {| positional := ["self"];
                 keyword_only :=
                   required ["alg"; "sig"; "ver"; "cert_info"; "pub_area"] |}
              [self_value self; extra] kwargs) as [msg Hmsg];
    [simpl; lia |].
  rewrite Hmsg. exists msg. reflexivity.
Qed.

(** The parent constructor itself works when called as its signature
    asks. *)
Lemma construct_TPMAttestationStatement (alg sig ver cert_info pub_area : pyval) :
  ∃ obj, construct TPMAttestationStatement_cls []
           (list_to_map [("alg", alg); ("sig", sig); ("ver", ver);
                         ("cert_info", cert_info); ("pub_area", pub_area)])
         = Ok obj
         ∧ inst_attrs obj !! "pub_area" = Some pub_area.
Proof. eexists. split; vm_compute; reflexivity. Qed.

(** With every keyword of its signature given, a TPM subtype fails in the
    parent call, on the count of positional arguments. *)
Lemma construct_TPMX509_well_formed (alg sig ver cert_info pub_area x5c : pyval) :
  construct TPMX509AttestationStatement_cls []
    (list_to_map [("alg", alg); ("sig", sig); ("ver", ver);
                  ("cert_info", cert_info); ("pub_area", pub_area);
                  ("x5c", x5c)])
  = raise TypeError "__init__() takes 1 positional argument but 2 were given".
Proof. vm_compute. reflexivity. Qed.

(** C8: for every combination of positional and keyword arguments,
    constructing a [TPMX509AttestationStatement] or a
    [TPMECDAAAttestationStatement] raises [TypeError]: either the arguments
    do not fit the subtype's own keyword-only signature, or they do and the
    parent [__init__], which takes [self] only, is handed [self] twice. No
    instance of either class comes out of its constructor. *)
Theorem TPM_subtypes_cannot_be_constructed (args : list pyval)
    (kwargs : gmap string pyval) :
  (∃ msg, construct TPMX509AttestationStatement_cls args kwargs
          = Raise (Exn TypeError msg))
  ∧ (∃ msg, construct TPMECDAAAttestationStatement_cls args kwargs
            = Raise (Exn TypeError msg)).
Proof.
  split.
  - unfold construct, init_of, TPMX509AttestationStatement_init.
    destruct (bind_arguments _ _ kwargs) as [b | [k m]] eqn:Hb.
    + simpl.
      destruct (TPMAttestationStatement_init_extra_positional
                  {| inst_class := TPMX509AttestationStatement_cls;
                     inst_attrs := ∅ |}
                  (self_value {| inst_class := TPMX509AttestationStatement_cls;
                                 inst_attrs := ∅ |})
                  (pass b ["alg"; "sig"; "ver"; "cert_info"; "pub_area"]))
        as [msg Hmsg].
      rewrite Hmsg. exists msg. reflexivity.
    + apply bind_arguments_TypeError in Hb. simpl in Hb. subst k.
      exists m. reflexivity.
  - unfold construct, init_of, TPMECDAAAttestationStatement_init.
    destruct (bind_arguments _ _ kwargs) as [b | [k m]] eqn:Hb.
    + simpl.
      destruct (TPMAttestationStatement_init_extra_positional
                  {| inst_class := TPMECDAAAttestationStatement_cls;
                     inst_attrs := ∅ |}
                  (self_value {| inst_class := TPMECDAAAttestationStatement_cls;
                                 inst_attrs := ∅ |})
                  (pass b ["alg"; "sig"; "ver"; "cert_info"; "pub_area"]))
        as [msg Hmsg].
      rewrite Hmsg. exists msg. reflexivity.
    + apply bind_arguments_TypeError in Hb. simpl in Hb. subst k.
      exists m. reflexivity.
Qed.

(** ** The registrar contract *)

(** C5: each of the six operations of [CredentialsRegistrar], on every
    input, raises [UnimplementedError] with the message "Must implement"
    followed by the name of that operation. *)
Theorem registrar_default_unimplemented
    (op : CredentialsRegistrar.operation) :
  CredentialsRegistrar.perform op
  = Some (Exn UnimplementedError
            ("Must implement " ++ CredentialsRegistrar.operation_name op)).
Proof. destruct op; reflexivity. Qed.

(** ** The general statements at concrete inputs *)

Lemma attest_unregistered_unimplemented_witness :
  isinstance sample_packed FIDOU2FAttestationStatement_cls = false
  ∧ isinstance sample_packed AndroidKeyAttestationStatement_cls = false
  ∧ isinstance sample_packed NoneAttestationStatement_cls = false
  ∧ run (attest (crypto := sample_crypto) sample_packed
           (sample_object sample_packed
              AttestationStatementFormatIdentifier.PACKED None)
           sample_auth_data sample_client_data_hash)
    = (Raise (Exn UnimplementedError
                ("<class 'webauthn_rp.types.PackedX509AttestationStatement'>"
                 ++ " verification unimplemented")),
       []).
Proof.
  repeat (split; [reflexivity |]).
  apply (@attest_unregistered_unimplemented sample_crypto sample_packed);
    reflexivity.
Defined.

Lemma attest_fido_u2f_certificate_count_witness :
  length [X5cBytes sample_pem; X5cBytes sample_pem] ≠ 1%nat
  ∧ run (attest (crypto := sample_crypto)
           (FIDOU2FAttestationStatement
              None None [X5cBytes sample_pem; X5cBytes sample_pem])
           (sample_object sample_fido_u2f
              AttestationStatementFormatIdentifier.FIDO_U2F None)
           sample_auth_data sample_client_data_hash)
    = (Raise (Exn ValidationError
                ("FIDO U2F verification failed: "
                 ++ "must have a single X.509 certificate")),
       []).
Proof.
  split; [simpl; lia |].
  apply (@attest_fido_u2f_certificate_count sample_crypto). simpl. lia.
Defined.

Lemma attest_fido_u2f_absent_credential_witness :
  ∃ attr : string,
    run (attest (crypto := sample_crypto) sample_fido_u2f
           (sample_object sample_fido_u2f
              AttestationStatementFormatIdentifier.FIDO_U2F
              (Some (sample_credential None)))
           sample_auth_data sample_client_data_hash)
    = (Raise (Exn AttributeError
                ("'NoneType' object has no attribute '" ++ attr ++ "'")),
       parsed_trace sample_pem {| cert_der := sample_pem |})
    ∧ documented_kind AttributeError = false.
Proof.
  apply (@attest_fido_u2f_absent_credential sample_crypto
           (Some ES256_name) (Some [Byte.x30]) sample_pem
           {| cert_der := sample_pem |} sample_pem []).
  - reflexivity.
  - reflexivity.
  - right. exists (sample_credential None). split; reflexivity.
Defined.

(* ===================================================================== *)
(** * Further properties of the verifier *)
(* ===================================================================== *)

Section AttestFurther.
Context `{crypto : Cryptography}.

Implicit Types (att_stmt : AttestationStatement) (att_obj : AttestationObject.t)
  (auth_data client_data_hash : bytes) (alg : option EnumMember)
  (sig : option bytes) (x5c rest : list x5c_item) (cert : Certificate)
  (k : PublicKeyObject) (m : EnumMember) (h : hash_arg).

Lemma attest_AndroidKey alg sig x5c att_obj auth_data client_data_hash :
  attest (AndroidKeyAttestationStatement alg sig x5c) att_obj auth_data
         client_data_hash
  = attest_android_key (AndroidKeyAttestationStatement alg sig x5c) att_obj
                       auth_data client_data_hash.
Proof. reflexivity. Qed.

(** The Android-Key verifier from the signature check on, once the
    certificate object has given its key and the algorithm name has
    selected a hash argument. *)
Lemma attest_android_key_unfold m sig cert rest k h att_obj auth_data
    client_data_hash :
  public_key cert = Ok k →
  (em_name m, h) ∈ android_key_hash_args →
  let vf := Call_verify k sig (auth_data ++ client_data_hash)%list h in
  let acd := attested_credential_data (AttestationObject.auth_data att_obj) in
  run (attest (AndroidKeyAttestationStatement (Some m) sig
                 (X5cCertificate cert :: rest))
              att_obj auth_data client_data_hash)
  = match verify k sig (auth_data ++ client_data_hash)%list h with
    | Verified =>
        match acd with
        | None => (no_attribute "NoneType" "credential_public_key",
                   [Call_public_key cert; vf])
        | Some a =>
            let conv :=
              Call_cryptography_public_key (credential_public_key a) in
            match cryptography_public_key (credential_public_key a) with
            | Ok cpk =>
                if public_key_ne cpk k
                then (raise ValidationError android_mismatch_message,
                      [Call_public_key cert; vf; conv])
                else (Ok ReturnNone, [Call_public_key cert; vf; conv])
            | Raise e => (Raise e, [Call_public_key cert; vf; conv])
            end
        end
    | InvalidSignature =>
        (raise VerificationError
               "Android Key verification failed: invalid signature",
         [Call_public_key cert; vf])
    | VerifyRaises e => (Raise e, [Call_public_key cert; vf])
    end.
Proof.
  intros Hpk Hh vf acd. subst vf acd. rewrite attest_AndroidKey.
  destruct m as [en nm val]. simpl in Hh.
  elem_cases Hh;
    unfold run, attest_android_key, verify_or, item_public_key; simpl;
    rewrite Hpk; simpl;
    destruct (verify k sig (auth_data ++ client_data_hash)%list _);
    simpl; try reflexivity;
    destruct (attested_credential_data (AttestationObject.auth_data att_obj))
      as [a |]; simpl; try reflexivity;
    destruct (cryptography_public_key (credential_public_key a)) as [cpk | e];
    simpl; try reflexivity;
    destruct (public_key_ne cpk k); reflexivity.
Qed.

(** An algorithm name is either one of the four the verifier accepts or
    different from all of them. *)
Lemma android_key_name_cases (n : string) :
  (∃ h, (n, h) ∈ android_key_hash_args)
  ∨ (n ≠ "ES256" ∧ n ≠ "ES384" ∧ n ≠ "ES512" ∧ n ≠ "EDDSA").
Proof.
  destruct (decide (n = "ES256")) as [-> | H1];
    [left; eexists; apply list_elem_of_here |].
  destruct (decide (n = "ES384")) as [-> | H2];
    [left; eexists; apply list_elem_of_further, list_elem_of_here |].
  destruct (decide (n = "ES512")) as [-> | H3];
    [left; eexists; do 2 apply list_elem_of_further; apply list_elem_of_here |].
  destruct (decide (n = "EDDSA")) as [-> | H4];
    [left; eexists; do 3 apply list_elem_of_further; apply list_elem_of_here |].
  right. auto.
Qed.

Lemma attest_android_key_unsupported m sig cert rest k att_obj auth_data
    client_data_hash :
  public_key cert = Ok k →
  em_name m ≠ "ES256" → em_name m ≠ "ES384" → em_name m ≠ "ES512" →
  em_name m ≠ "EDDSA" →
  run (attest (AndroidKeyAttestationStatement (Some m) sig
                 (X5cCertificate cert :: rest))
              att_obj auth_data client_data_hash)
  = (raise ValidationError ("Unsupported hashing algorithm " ++ em_name m),
     [Call_public_key cert]).
Proof.
  intros Hpk H1 H2 H3 H4. rewrite attest_AndroidKey.
  unfold run, attest_android_key, verify_or, item_public_key. simpl.
  rewrite Hpk. simpl.
  apply String.eqb_neq in H1, H2, H3, H4.
  rewrite H1, H2, H3, H4. reflexivity.
Qed.

(** X1: on a FIDO-U2F statement [attest] never returns, whatever the
    statement, the attestation object and the library do: it always raises,
    after at most two library calls (parsing the certificate and reading
    its key), none of which is a signature check. *)
Theorem attest_fido_u2f_always_raises alg sig x5c att_obj auth_data
    client_data_hash :
  ∃ (e : exn) (tr : list lib_call),
    run (attest (FIDOU2FAttestationStatement alg sig x5c) att_obj auth_data
                client_data_hash) = (Raise e, tr)
    ∧ (length tr ≤ 2)%nat
    ∧ Forall (λ c, is_verify c = false) tr.
Proof.
  rewrite attest_FIDOU2F. unfold run, attest_fido_u2f. simpl.
  destruct x5c as [| c [| c' l]]; simpl;
    try (eexists _, _; split; [reflexivity | split; [simpl; lia |]];
         repeat constructor).
  destruct (load_pem_x509_certificate c) as [cert | e]; simpl;
    [| eexists _, _; split; [reflexivity | split; [simpl; lia |]];
       repeat constructor].
  destruct (public_key cert) as [k | e]; simpl;
    [| eexists _, _; split; [reflexivity | split; [simpl; lia |]];
       repeat constructor].
  destruct k as [cv kx ky | | | |]; simpl;
    try (eexists _, _; split; [reflexivity | split; [simpl; lia |]];
         repeat constructor).
  destruct cv; simpl;
    try (eexists _, _; split; [reflexivity | split; [simpl; lia |]];
         repeat constructor).
  destruct (attested_credential_data (AttestationObject.auth_data att_obj))
    as [a |]; simpl;
    [| eexists _, _; split; [reflexivity | split; [simpl; lia |]];
       repeat constructor].
  destruct (credential_public_key a) as [[f | f ex ey crv | f crv ex] |];
    simpl; eexists _, _; (split; [reflexivity | split; [simpl; lia |]]);
    repeat constructor.
Qed.

(** X2: when the single certificate of a FIDO-U2F statement parses and its
    key is not an elliptic-curve key on P-256, [attest] raises
    [ValidationError] right after reading the key, whatever the attestation
    object holds and whatever the signature is. *)
Theorem attest_fido_u2f_wrong_key alg sig (c : x5c_item) cert k att_obj
    auth_data client_data_hash :
  load_pem_x509_certificate c = Ok cert →
  public_key cert = Ok k →
  (∀ x y, k ≠ EllipticCurvePublicKey SECP256R1 x y) →
  run (attest (FIDOU2FAttestationStatement alg sig [c]) att_obj auth_data
              client_data_hash)
  = (Raise (Exn ValidationError
              ("FIDO U2F verification failed: "
               ++ "must use an Elliptic Curve Public Key")),
     [Call_load_pem_x509_certificate c; Call_public_key cert]).
Proof.
  intros Hload Hpk Hk. rewrite attest_FIDOU2F.
  unfold run, attest_fido_u2f. simpl. rewrite Hload. simpl.
  rewrite Hpk. simpl.
  destruct k as [cv kx ky | | | |]; simpl; try reflexivity.
  destruct cv; simpl; try reflexivity.
  exfalso. exact (Hk kx ky eq_refl).
Qed.

(** X3: when the certificate is fine but the credential public key of the
    attestation object is not an EC2 key, the FIDO-U2F verifier raises
    [AttributeError] on the missing coordinate: [y] for an OKP key, [x] for
    a key of the base class. The kind of credential key is never tested. *)
Theorem attest_fido_u2f_non_EC2_credential alg sig (pem : bytes) cert
    (x y : bytes) att_obj (a : AttestedCredentialData)
    (key : CredentialPublicKey) auth_data client_data_hash :
  load_pem_x509_certificate (X5cBytes pem) = Ok cert →
  public_key cert = Ok (EllipticCurvePublicKey SECP256R1 x y) →
  attested_credential_data (AttestationObject.auth_data att_obj) = Some a →
  credential_public_key a = Some key →
  (∀ f kx ky crv, key ≠ EC2CredentialPublicKey f kx ky crv) →
  run (attest (FIDOU2FAttestationStatement alg sig [X5cBytes pem]) att_obj
              auth_data client_data_hash)
  = (Raise (Exn AttributeError
              ("'" ++ cpk_class_name key ++ "' object has no attribute '"
               ++ match key with
                  | OKPCredentialPublicKey _ _ _ => "y"
                  | _ => "x"
                  end ++ "'")),
     parsed_trace pem cert).
Proof.
  intros Hload Hpk Hacd Hkey Hne. rewrite attest_FIDOU2F.
  unfold run, attest_fido_u2f. simpl. rewrite Hload. simpl.
  rewrite Hpk. simpl. rewrite Hacd. simpl. rewrite Hkey.
  destruct key as [f | f kx ky crv | f crv kx]; simpl; try reflexivity.
  exfalso. exact (Hne f kx ky crv eq_refl).
Qed.

(** X4: unless the first element of [x5c] is a certificate object, the
    Android-Key verifier fails before any library call: with
    [ValidationError] when [x5c] is empty, and with [AttributeError] when
    the first element is a bytes value, which has no [public_key]. *)
Theorem attest_android_key_needs_certificate_object alg sig x5c att_obj
    auth_data client_data_hash :
  (∀ cert rest, x5c ≠ X5cCertificate cert :: rest) →
  run (attest (AndroidKeyAttestationStatement alg sig x5c) att_obj auth_data
              client_data_hash)
  = (Raise (match x5c with
            | [] => Exn ValidationError "Must have at least 1 X509 certificate"
            | _ => Exn AttributeError
                       "'bytes' object has no attribute 'public_key'"
            end),
     []).
Proof.
  intros Hx. rewrite attest_AndroidKey.
  destruct x5c as [| [pem | cert] rest]; try reflexivity.
  exfalso. exact (Hx cert rest eq_refl).
Qed.

(** X5: an algorithm whose name is none of [ES256], [ES384], [ES512] and
    [EDDSA] makes the Android-Key verifier raise [ValidationError] naming
    it, after reading the certificate key and before any signature
    check. *)
Theorem attest_android_key_unsupported_algorithm m sig cert rest k att_obj
    auth_data client_data_hash :
  public_key cert = Ok k →
  em_name m ∉ android_key_hash_args.*1 →
  run (attest (AndroidKeyAttestationStatement (Some m) sig
                 (X5cCertificate cert :: rest))
              att_obj auth_data client_data_hash)
  = (Raise (Exn ValidationError
              ("Unsupported hashing algorithm " ++ em_name m)),
     [Call_public_key cert]).
Proof.
  intros Hpk Hn.
  apply (attest_android_key_unsupported m sig cert rest k);
    [exact Hpk | | | |];
    intros Heq; apply Hn; rewrite Heq; simpl.
  - apply list_elem_of_here.
  - apply list_elem_of_further, list_elem_of_here.
  - do 2 apply list_elem_of_further. apply list_elem_of_here.
  - do 3 apply list_elem_of_further. apply list_elem_of_here.
Qed.

(** X6: every member of [COSEAlgorithmIdentifier], from the [Name] table or
    from the [Value] table, passes the algorithm check of the Android-Key
    verifier; the signature is then checked over the authenticator data
    followed by the client-data hash, with the hash class that belongs to
    the member ([SHA256], [SHA384], [SHA512]) or with no hash argument for
    [EDDSA]. *)
Theorem attest_android_key_algorithm_selection (v : pyval) m sig cert rest k
    att_obj auth_data client_data_hash :
  NameValueEnumsContainer.__call__ COSEAlgorithmIdentifier v = Ok m →
  public_key cert = Ok k →
  ∃ h (r : result attest_return) (tr : list lib_call),
    (em_name m, h) ∈ android_key_hash_args
    ∧ run (attest (AndroidKeyAttestationStatement (Some m) sig
                     (X5cCertificate cert :: rest))
                  att_obj auth_data client_data_hash)
      = (r, Call_public_key cert
            :: Call_verify k sig (auth_data ++ client_data_hash)%list h
            :: tr).
Proof.
  intros Hm Hpk.
  assert (Hh : ∃ h, (em_name m, h) ∈ android_key_hash_args).
  { unfold NameValueEnumsContainer.__call__, enum_call in Hm.
    destruct v; simpl in Hm; try discriminate Hm;
      repeat match type of Hm with
             | context [if ?d then _ else _] => destruct d
             end;
      inversion Hm; simpl; eexists;
      first [ apply list_elem_of_here
            | apply list_elem_of_further, list_elem_of_here
            | do 2 apply list_elem_of_further; apply list_elem_of_here
            | do 3 apply list_elem_of_further; apply list_elem_of_here ]. }
  destruct Hh as [h Hh]. exists h.
  rewrite (attest_android_key_unfold m sig cert rest k h att_obj auth_data
             client_data_hash Hpk Hh).
  repeat match goal with
         | |- context [match ?d with _ => _ end] => destruct d
         end;
    eexists _, _; (split; [exact Hh | reflexivity]).
Qed.

(** X7: when the library reports an invalid signature, the Android-Key
    verifier raises [VerificationError] and stops there: the credential
    public key is not converted or compared. *)
Theorem attest_android_key_invalid_signature m sig cert rest k h att_obj
    auth_data client_data_hash :
  public_key cert = Ok k →
  (em_name m, h) ∈ android_key_hash_args →
  verify k sig (auth_data ++ client_data_hash)%list h = InvalidSignature →
  run (attest (AndroidKeyAttestationStatement (Some m) sig
                 (X5cCertificate cert :: rest))
              att_obj auth_data client_data_hash)
  = (Raise (Exn VerificationError
              "Android Key verification failed: invalid signature"),
     [Call_public_key cert;
      Call_verify k sig (auth_data ++ client_data_hash)%list h]).
Proof.
  intros Hpk Hh Hv.
  rewrite (attest_android_key_unfold m sig cert rest k h att_obj auth_data
             client_data_hash Hpk Hh).
  rewrite Hv. reflexivity.
Qed.

(** X8: a valid signature is not enough for the Android-Key verifier: when
    the converted credential public key is unequal to the key of the
    certificate, it raises [ValidationError]. *)
Theorem attest_android_key_key_mismatch m sig cert rest k h att_obj
    (a : AttestedCredentialData) (cpk : PublicKeyObject) auth_data
    client_data_hash :
  public_key cert = Ok k →
  (em_name m, h) ∈ android_key_hash_args →
  verify k sig (auth_data ++ client_data_hash)%list h = Verified →
  attested_credential_data (AttestationObject.auth_data att_obj) = Some a →
  cryptography_public_key (credential_public_key a) = Ok cpk →
  public_key_ne cpk k = true →
  run (attest (AndroidKeyAttestationStatement (Some m) sig
                 (X5cCertificate cert :: rest))
              att_obj auth_data client_data_hash)
  = (Raise (Exn ValidationError android_mismatch_message),
     [Call_public_key cert;
      Call_verify k sig (auth_data ++ client_data_hash)%list h;
      Call_cryptography_public_key (credential_public_key a)]).
Proof.
  intros Hpk Hh Hv Hacd Hconv Hne.
  rewrite (attest_android_key_unfold m sig cert rest k h att_obj auth_data
             client_data_hash Hpk Hh).
  rewrite Hv, Hacd. simpl. rewrite Hconv, Hne. reflexivity.
Qed.

(** X9: the Android-Key verifier completes only when every check passed:
    the first element of [x5c] is a certificate object whose key the
    library returned, the algorithm is one of the four accepted, the
    library verified the signature over the authenticator data followed by
    the client-data hash with the hash argument of that algorithm, the
    attested credential data is present, its key was converted, and the
    converted key is not unequal to the certificate key. It then made
    exactly these three library calls. *)
Theorem attest_android_key_completes_only_if alg sig x5c att_obj auth_data
    client_data_hash (r : attest_return) (tr : list lib_call) :
  run (attest (AndroidKeyAttestationStatement alg sig x5c) att_obj auth_data
              client_data_hash) = (Ok r, tr) →
  ∃ cert rest k m h (a : AttestedCredentialData) (cpk : PublicKeyObject),
    x5c = X5cCertificate cert :: rest
    ∧ public_key cert = Ok k
    ∧ alg = Some m
    ∧ (em_name m, h) ∈ android_key_hash_args
    ∧ verify k sig (auth_data ++ client_data_hash)%list h = Verified
    ∧ attested_credential_data (AttestationObject.auth_data att_obj) = Some a
    ∧ cryptography_public_key (credential_public_key a) = Ok cpk
    ∧ public_key_ne cpk k = false
    ∧ tr = [Call_public_key cert;
            Call_verify k sig (auth_data ++ client_data_hash)%list h;
            Call_cryptography_public_key (credential_public_key a)].
Proof.
  intros Hrun.
  destruct x5c as [| [pem | cert] rest];
    [vm_compute in Hrun; discriminate Hrun
    | vm_compute in Hrun; discriminate Hrun |].
  destruct (public_key cert) as [k | e] eqn:Hpk.
  2:{ rewrite attest_AndroidKey in Hrun.
      unfold run, attest_android_key, item_public_key in Hrun.
      simpl in Hrun. rewrite Hpk in Hrun. discriminate Hrun. }
  destruct alg as [m |].
  2:{ rewrite attest_AndroidKey in Hrun.
      unfold run, attest_android_key, item_public_key in Hrun.
      simpl in Hrun. rewrite Hpk in Hrun. discriminate Hrun. }
  destruct (android_key_name_cases (em_name m))
    as [[h Hh] | (H1 & H2 & H3 & H4)].
  2:{ rewrite (attest_android_key_unsupported m sig cert rest k att_obj
                 auth_data client_data_hash Hpk H1 H2 H3 H4) in Hrun.
      discriminate Hrun. }
  rewrite (attest_android_key_unfold m sig cert rest k h att_obj auth_data
             client_data_hash Hpk Hh) in Hrun.
  destruct (verify k sig (auth_data ++ client_data_hash)%list h) eqn:Hv;
    try discriminate Hrun.
  destruct (attested_credential_data (AttestationObject.auth_data att_obj))
    as [a |] eqn:Hacd; try discriminate Hrun.
  simpl in Hrun.
  destruct (cryptography_public_key (credential_public_key a))
    as [cpk | e] eqn:Hconv; try discriminate Hrun.
  destruct (public_key_ne cpk k) eqn:Hne; try discriminate Hrun.
  inversion Hrun; subst.
  exists cert, rest, k, m, h, a, cpk. repeat split; assumption || reflexivity.
Qed.

(** X10: conversely, when all those checks pass the Android-Key verifier
    completes, and what it hands back is [None]. *)
Theorem attest_android_key_completes_if m sig cert rest k h att_obj
    (a : AttestedCredentialData) (cpk : PublicKeyObject) auth_data
    client_data_hash :
  public_key cert = Ok k →
  (em_name m, h) ∈ android_key_hash_args →
  verify k sig (auth_data ++ client_data_hash)%list h = Verified →
  attested_credential_data (AttestationObject.auth_data att_obj) = Some a →
  cryptography_public_key (credential_public_key a) = Ok cpk →
  public_key_ne cpk k = false →
  run (attest (AndroidKeyAttestationStatement (Some m) sig
                 (X5cCertificate cert :: rest))
              att_obj auth_data client_data_hash)
  = (Ok ReturnNone,
     [Call_public_key cert;
      Call_verify k sig (auth_data ++ client_data_hash)%list h;
      Call_cryptography_public_key (credential_public_key a)]).
Proof.
  intros Hpk Hh Hv Hacd Hconv Hne.
  rewrite (attest_android_key_unfold m sig cert rest k h att_obj auth_data
             client_data_hash Hpk Hh).
  rewrite Hv, Hacd. simpl. rewrite Hconv, Hne. reflexivity.
Qed.

(** X11: the Android-Key verifier reads little of its input. Of [x5c] it
    uses the first element only, of the algorithm its name only, and of the
    attestation object the credential public key only: two calls that agree
    on these, on the signature and on the two byte strings have the same
    outcome and make the same library calls, whatever the rest of the
    certificate chain, the relying-party hash, the flags, the counter, the
    credential id and the format are. *)
Theorem attest_android_key_reads_only alg alg' sig (c : x5c_item) rest rest'
    att_obj (att_obj' : AttestationObject.t) auth_data client_data_hash :
  get_name alg = get_name alg' →
  get_credential_public_key
    (attested_credential_data (AttestationObject.auth_data att_obj))
  = get_credential_public_key
      (attested_credential_data (AttestationObject.auth_data att_obj')) →
  run (attest (AndroidKeyAttestationStatement alg sig (c :: rest)) att_obj
              auth_data client_data_hash)
  = run (attest (AndroidKeyAttestationStatement alg' sig (c :: rest'))
                att_obj' auth_data client_data_hash).
Proof.
  intros Hname Hkey. rewrite !attest_AndroidKey.
  unfold run, attest_android_key. simpl stmt_alg. simpl stmt_sig.
  rewrite Hname, Hkey. reflexivity.
Qed.

(** X12: whatever the statement, [attest] never returns an attestation
    type other than [NONE] and never returns a trust path: a call that
    returns a pair is a call on a None statement, it returns
    [(NONE, None)], and it made no library call. *)
Theorem attest_returns_no_trust att_stmt att_obj auth_data client_data_hash
    (t : AttestationType.t) (p : option (list Certificate))
    (tr : list lib_call) :
  run (attest att_stmt att_obj auth_data client_data_hash)
  = (Ok (ReturnPair t p), tr) →
  type_of att_stmt = NoneAttestationStatement_cls
  ∧ t = AttestationType.NONE ∧ p = None ∧ tr = [].
Proof.
  intros Hrun. destruct att_stmt;
    try (vm_compute in Hrun; discriminate Hrun).
  - apply attest_android_key_completes in Hrun. discriminate Hrun.
  - destruct (attest_fido_u2f_never_verifies alg sig x5c att_obj auth_data
                client_data_hash) as (e & tr' & Hfail & _).
    rewrite Hfail in Hrun. discriminate Hrun.
  - vm_compute in Hrun. inversion Hrun. repeat split; reflexivity.
Qed.

(** X13: dispatch follows the method resolution order, and in this
    hierarchy that comes to the class itself: every class derives from
    [AttestationStatement] in at most two steps, none derives from a
    registered class, so the implementation chosen for a statement is the
    one registered for its exact class, and the default otherwise. *)
Theorem dispatch_by_exact_class (c : StmtClass) :
  dispatch c = registry c
  ∧ last (mro c) = Some AttestationStatement_cls
  ∧ (∀ c', c' ∈ mro c → c' ≠ c → registry c' = None).
Proof.
  split; [destruct c; reflexivity |].
  split; [destruct c; reflexivity |].
  intros c' Hin Hne.
  destruct c; vm_compute in Hin; elem_cases Hin;
    first [reflexivity | contradiction Hne; reflexivity].
Qed.

End AttestFurther.

(* ===================================================================== *)
(** * Further properties of the enumerations *)
(* ===================================================================== *)

Section DualEnumsFurther.
Import NameValueEnumsContainer.

(** Replace the logical members of a concrete enumeration by the list. *)
Ltac members_in H :=
  match type of H with
  | context [logical_members ?cls] =>
      let l := eval vm_compute in (logical_members cls) in
      change (logical_members cls) with l in H
  end.

Ltac split_Forall H :=
  repeat (apply Forall_cons in H; destruct H as [[? ?] H]);
  clear H.

(** X14: calling a dual enumeration with a string or an integer that is no
    symbolic name and no registry code of it raises [ValueError], not the
    invalid-key [KeyError]: the lookup of the nested [Enum] class fails
    with its own exception. *)
Theorem dual_enum_call_unknown_value (cls : NameValueEnum) (v : pyval) :
  cls ∈ dual_enums →
  type_is_int v || type_is_str v = true →
  Forall (λ mem : string * pyval * pyval, v ≠ mem.1.2 ∧ v ≠ mem.2)
         (logical_members cls) →
  __call__ cls v = Raise (Exn ValueError (py_str v)).
Proof.
  intros Hcls Hty Hun.
  elem_cases Hcls; members_in Hun; split_Forall Hun; simpl in *;
    destruct v as [| b | z | s | b |]; try discriminate Hty;
    unfold __call__, enum_call; simpl;
    repeat match goal with
           | |- context [(z =? ?c)%Z] =>
               destruct (Z.eqb_spec z c); [congruence |]
           | |- context [String.eqb s ?c] =>
               destruct (String.eqb_spec s c); [congruence |]
           end;
    reflexivity.
Qed.

(** X15: what a call returns can be fed back. If calling one of the five
    enumerations with [v] returns the member [m], then [m] carries the value
    [v], it belongs to the [Value] table when [v] is an integer and to the
    [Name] table when [v] is a string, calling with the value of [m]
    returns [m] again, and indexing with the identifier of [m] succeeds
    with a member of the same identifier. *)
Theorem dual_enum_call_round_trip (cls : NameValueEnum) (v : pyval)
    (m : EnumMember) :
  cls ∈ dual_enums →
  __call__ cls v = Ok m →
  em_value m = v
  ∧ em_enum m = enum_qualname (if type_is_int v then Value cls else Name cls)
  ∧ __call__ cls (em_value m) = Ok m
  ∧ ∃ m', __getitem__ cls (PyStr (em_name m)) = Ok m'
          ∧ em_name m' = em_name m.
Proof.
  intros Hcls Hm.
  elem_cases Hcls; unfold __call__, enum_call in Hm;
    destruct v as [| b | z | s | b |]; simpl in Hm; try discriminate Hm;
    repeat match type of Hm with
           | context [(z =? ?c)%Z] => destruct (Z.eqb_spec z c); [subst z |]
           | context [String.eqb s ?c] =>
               destruct (String.eqb_spec s c); [subst s |]
           end;
    inversion Hm; subst m;
    (split; [reflexivity |]); (split; [reflexivity |]);
    (split; [reflexivity |]); eexists; split; reflexivity.
Qed.

(** X16: a lookup by name and a lookup by code never give equal members,
    for any dual enumeration: the first comes from the [Name] class and
    carries a string, the second from the [Value] class and carries a
    number. Only the identifier is shared. *)
Theorem dual_enum_name_and_code_members_differ (cls : NameValueEnum)
    (s : string) (z : Z) (a b : EnumMember) :
  __call__ cls (PyStr s) = Ok a →
  __call__ cls (PyInt z) = Ok b →
  a ≠ b ∧ em_value a = PyStr s ∧ type_is_str (em_value b) = false.
Proof.
  unfold __call__, enum_call. simpl. intros Ha Hb.
  destruct (List.find _ (enum_members (Name cls))) as [ma |] eqn:Hfa;
    [| discriminate Ha].
  destruct (List.find _ (enum_members (Value cls))) as [mb |] eqn:Hfb;
    [| discriminate Hb].
  apply find_some in Hfa as [_ Hea]. apply find_some in Hfb as [_ Heb].
  inversion Ha; subst a. inversion Hb; subst b. clear Ha Hb. simpl.
  destruct ma as [ia va], mb as [ib vb]. simpl in *.
  destruct va; try discriminate Hea. apply String.eqb_eq in Hea. subst.
  assert (Hvb : type_is_str vb = false)
    by (destruct vb; first [reflexivity | discriminate Heb]).
  split; [| split; [reflexivity | exact Hvb]].
  intros Heq. inversion Heq; subst. discriminate Hvb.
Qed.

(** X17: in each of the five dual enumerations the [Name] class and the
    [Value] class declare the same identifiers in the same order, no
    identifier and no value occurs twice (so [Enum] creates no alias), and
    every member has both a symbolic name and a registry code. *)
Theorem dual_enum_tables_aligned (cls : NameValueEnum) :
  cls ∈ dual_enums →
  (enum_members (Name cls)).*1 = (enum_members (Value cls)).*1
  ∧ NoDup (enum_members (Name cls)).*1
  ∧ NoDup (enum_members (Name cls)).*2
  ∧ NoDup (enum_members (Value cls)).*2
  ∧ (logical_members cls).*1.*1 = (enum_members (Name cls)).*1.
Proof.
  intros Hcls.
  elem_cases Hcls;
    (split; [reflexivity |]);
    (split; [apply (bool_decide_unpack _); vm_compute; reflexivity |]);
    (split; [apply (bool_decide_unpack _); vm_compute; reflexivity |]);
    (split; [apply (bool_decide_unpack _); vm_compute; reflexivity |]);
    reflexivity.
Qed.

(** X18: indexing a dual enumeration with an integer never succeeds, not
    even with a registry code that calling accepts: the integer branch of
    [__getitem__] indexes the [Value] class, and an [Enum] class is indexed
    by member identifier. *)
Theorem dual_enum_index_by_code_fails (cls : NameValueEnum) (z : Z) :
  __getitem__ cls (PyInt z) = Raise (Exn KeyError (pretty z))
  ∧ ∀ m, __call__ cls (PyInt z) = Ok m → __getitem__ cls (PyInt z) ≠ Ok m.
Proof.
  assert (Hk : __getitem__ cls (PyInt z) = Raise (Exn KeyError (pretty z))).
  { unfold __getitem__. simpl. apply enum_getitem_int. }
  split; [exact Hk |]. intros m _. rewrite Hk. discriminate.
Qed.

End DualEnumsFurther.

(** X19: the six masks of [AuthenticatorDataFlag] are 0x01, 0x02, 0x04,
    0x38, 0x40 and 0x80; two different masks share no bit, and together
    they cover one byte exactly, so that the parts of any flags value
    selected by the six masks add up to its low eight bits. *)
Theorem AuthenticatorDataFlag_masks_partition (flags : Z) :
  AuthenticatorDataFlag_masks.*2 = [1; 2; 4; 56; 64; 128]
  ∧ (∀ a b, a ∈ AuthenticatorDataFlag_masks →
            b ∈ AuthenticatorDataFlag_masks →
            a.1 ≠ b.1 → Z.land a.2 b.2 = 0)
  ∧ foldr Z.lor 0 (flag_parts flags) = flags mod 256.
Proof.
  split; [reflexivity |]. split.
  - intros a b Ha Hb Hne.
    unfold AuthenticatorDataFlag_masks in Ha, Hb.
    elem_cases Ha; elem_cases Hb; simpl in *;
      first [reflexivity | contradiction Hne; reflexivity].
  - unfold flag_parts, AuthenticatorDataFlag_masks. simpl map. simpl foldr.
    rewrite Z.lor_0_r. rewrite <- !Z.land_lor_distr_r.
    change (Z.lor _ _) with (Z.ones 8).
    rewrite Z.land_ones by lia. reflexivity.
Qed.

(* ===================================================================== *)
(** * Further properties of the constructors *)
(* ===================================================================== *)

(** Every [__init__] starts by binding its arguments to its signature. *)
Lemma init_of_bind_fails (c : StmtClass) (self : instance)
    (args : list pyval) (kwargs : gmap string pyval) (e : exn) :
  bind_arguments (signature_of c) (self_value self :: args) kwargs = Raise e →
  init_of c self args kwargs = Raise e.
Proof.
  intros Hb. destruct c; cbv beta iota delta [signature_of init_of] in *;
    [ unfold AttestationStatement_init
    | unfold PackedAttestationStatement_init
    | unfold PackedX509AttestationStatement_init
    | unfold PackedECDAAAttestationStatement_init
    | unfold TPMAttestationStatement_init
    | unfold TPMX509AttestationStatement_init
    | unfold TPMECDAAAttestationStatement_init
    | unfold AndroidKeyAttestationStatement_init
    | unfold AndroidSafetyNetAttestationStatement_init
    | unfold FIDOU2FAttestationStatement_init
    | unfold AttestationStatement_init ];
    rewrite Hb; reflexivity.
Qed.

Lemma dom_key_in_list (kwargs : gmap string pyval) (key : string) :
  key ∈ dom kwargs → In key (map_to_list kwargs).*1.
Proof.
  intros Hk. apply elem_of_dom in Hk as [v Hv].
  apply list_elem_of_In, list_elem_of_fmap.
  exists (key, v). split; [reflexivity |].
  apply elem_of_map_to_list. exact Hv.
Qed.

Lemma filter_nil_not_In {A} (f : A → bool) (l : list A) (x : A) :
  List.filter f l = [] → In x l → f x = false.
Proof.
  intros Hnil Hin. destruct (f x) eqn:Hfx; [| reflexivity].
  assert (Hx : In x (List.filter f l)) by (apply filter_In; auto).
  rewrite Hnil in Hx. destruct Hx.
Qed.

(** A keyword that is no keyword parameter of the class is refused. *)
Lemma bind_arguments_unexpected (c : StmtClass) (first : pyval)
    (args : list pyval) (kwargs : gmap string pyval) (key : string) :
  key ∈ dom kwargs → key ∉ keywords c →
  ∃ msg, bind_arguments (signature_of c) (first :: args) kwargs
         = Raise (Exn TypeError msg).
Proof.
  intros Hdom Hkw. apply dom_key_in_list in Hdom.
  unfold bind_arguments, raise.
  destruct (List.filter _ (map_to_list kwargs).*1) eqn:F1;
    [| eexists; reflexivity].
  destruct (List.filter _ (map_to_list kwargs).*1) eqn:F2 in |- *;
    [| eexists; reflexivity].
  exfalso.
  pose proof (filter_nil_not_In _ _ key F1 Hdom) as H1.
  pose proof (filter_nil_not_In _ _ key F2 Hdom) as H2.
  apply negb_false_iff, bool_decide_eq_true in H1.
  apply bool_decide_eq_false in H2.
  apply elem_of_app in H1 as [H1 | H1]; [| exact (Hkw H1)].
  apply H2. simpl. rewrite take_nil. exact H1.
Qed.

(** A keyword parameter without default that the call leaves out is
    reported. *)
Lemma bind_arguments_missing (c : StmtClass) (first : pyval)
    (args : list pyval) (kwargs : gmap string pyval) (n : string) :
  n ∈ required_keywords c → n ∉ dom kwargs →
  ∃ msg, bind_arguments (signature_of c) (first :: args) kwargs
         = Raise (Exn TypeError msg).
Proof.
  intros Hreq Hdom. unfold bind_arguments, raise.
  destruct (List.filter _ (map_to_list kwargs).*1);
    [| eexists; reflexivity].
  destruct (List.filter _ (map_to_list kwargs).*1);
    [| eexists; reflexivity].
  destruct (bool_decide _); [eexists; reflexivity |].
  destruct (List.filter _ (positional (signature_of c)));
    [| eexists; reflexivity].
  destruct (List.filter _ (keyword_only (signature_of c))) eqn:F4;
    [| eexists; reflexivity].
  exfalso.
  unfold required_keywords in Hreq.
  apply list_elem_of_fmap in Hreq as [[n' d] [-> Hin]].
  apply list_elem_of_In, filter_In in Hin as [Hin Hd]. simpl in Hd.
  pose proof (filter_nil_not_In _ _ (n', d) F4 Hin) as H4. simpl in H4.
  rewrite Hd in H4. rewrite andb_true_r in H4.
  apply negb_false_iff, bool_decide_eq_true in H4.
  simpl in H4.
  apply elem_of_dom in H4 as [v Hv].
  apply lookup_union_Some_raw in Hv as [Hv | [_ Hv]].
  - assert (n' = "self") as ->.
    { destruct (decide (n' = "self")) as [-> | Hne]; [reflexivity |].
      rewrite lookup_insert_ne in Hv by congruence.
      rewrite lookup_empty in Hv. discriminate Hv. }
    destruct c; simpl in Hin;
      repeat (destruct Hin as [Hin | Hin]; [discriminate Hin |]);
      destruct Hin.
  - apply Hdom. simpl. apply elem_of_dom. eexists; exact Hv.
Qed.

(** X20: the constructors of the statement hierarchy take keyword
    arguments only, and exactly those of their signature: a call with a
    positional argument, with a keyword that is no parameter of the class,
    or without a keyword parameter that has no default, raises
    [TypeError]. *)
Theorem construct_rejects_ill_formed_call (c : StmtClass) (args : list pyval)
    (kwargs : gmap string pyval) :
  args ≠ []
  ∨ (∃ key, key ∈ dom kwargs ∧ key ∉ keywords c)
  ∨ (∃ n, n ∈ required_keywords c ∧ n ∉ dom kwargs) →
  ∃ msg, construct c args kwargs = Raise (Exn TypeError msg).
Proof.
  intros Hbad. unfold construct.
  set (self := {| inst_class := c; inst_attrs := ∅ |}).
  assert (Hb : ∃ msg, bind_arguments (signature_of c)
                        (self_value self :: args) kwargs
                      = Raise (Exn TypeError msg)).
  { destruct Hbad as [Hargs | [(key & Hk & Hnk) | (n & Hn & Hnd)]].
    - apply bind_arguments_excess. destruct args; [contradiction |].
      simpl. lia.
    - exact (bind_arguments_unexpected c _ args kwargs key Hk Hnk).
    - exact (bind_arguments_missing c _ args kwargs n Hn Hnd). }
  destruct Hb as [msg Hb]. exists msg.
  apply init_of_bind_fails. exact Hb.
Qed.

(** X21: called with exactly the keywords of its signature, every class
    of the hierarchy other than the two TPM subtypes constructs an
    instance of that class whose attributes are the keywords given, each
    with the value given: what is passed in can be read back. *)
Theorem construct_sets_attributes (c : StmtClass) (vals : string → pyval) :
  is_TPM_subtype c = false →
  construct c [] (keyword_arguments (keywords c) vals)
  = Ok {| inst_class := c;
          inst_attrs := keyword_arguments (keywords c) vals |}.
Proof.
  intros Hc. destruct c; try discriminate Hc; vm_compute; reflexivity.
Qed.

(** X22: [alg] and [sig] default to [None] in [AttestationStatement] and
    in [NoneAttestationStatement], which inherits its constructor: each may
    be left out, and the attribute is then [None]. *)
Theorem construct_defaults (c : StmtClass) (alg sig : option pyval) :
  c = AttestationStatement_cls ∨ c = NoneAttestationStatement_cls →
  construct c []
    (list_to_map (omap id [pair "alg" <$> alg; pair "sig" <$> sig]))
  = Ok {| inst_class := c;
          inst_attrs := {[ "alg" := default PyNone alg;
                           "sig" := default PyNone sig ]} |}.
Proof.
  intros [-> | ->]; destruct alg, sig; vm_compute; reflexivity.
Qed.

(** ** The further statements at concrete inputs *)

Lemma attest_fido_u2f_wrong_key_witness :
  run (attest (crypto := stub_crypto (RSAPublicKey 3233 17) Verified)
         sample_fido_u2f
         (sample_object sample_fido_u2f
            AttestationStatementFormatIdentifier.FIDO_U2F None)
         sample_auth_data sample_client_data_hash)
  = (Raise (Exn ValidationError
              ("FIDO U2F verification failed: "
               ++ "must use an Elliptic Curve Public Key")),
     [Call_load_pem_x509_certificate (X5cBytes sample_pem);
      Call_public_key sample_certificate]).
Proof.
  apply (@attest_fido_u2f_wrong_key
           (stub_crypto (RSAPublicKey 3233 17) Verified)
           (Some ES256_name) (Some [Byte.x30]) (X5cBytes sample_pem)
           sample_certificate (RSAPublicKey 3233 17)).
  - reflexivity.
  - reflexivity.
  - intros x y Heq. discriminate Heq.
Defined.

Lemma attest_fido_u2f_non_EC2_credential_witness :
  run (attest (crypto := sample_crypto) sample_fido_u2f
         (sample_object sample_fido_u2f
            AttestationStatementFormatIdentifier.FIDO_U2F
            (Some (sample_credential (Some sample_okp_key))))
         sample_auth_data sample_client_data_hash)
  = (Raise (Exn AttributeError
              "'OKPCredentialPublicKey' object has no attribute 'y'"),
     parsed_trace sample_pem sample_certificate).
Proof.
  apply (@attest_fido_u2f_non_EC2_credential sample_crypto
           (Some ES256_name) (Some [Byte.x30]) sample_pem sample_certificate
           sample_pem [] _ (sample_credential (Some sample_okp_key))
           sample_okp_key).
  - reflexivity.
  - reflexivity.
  - reflexivity.
  - reflexivity.
  - intros f kx ky crv Heq. discriminate Heq.
Defined.

Lemma attest_android_key_needs_certificate_object_witness :
  run (attest (crypto := sample_crypto)
         (AndroidKeyAttestationStatement (Some ES256_name) (Some [Byte.x30])
                                         [X5cBytes sample_pem])
         (sample_object sample_android_key
            AttestationStatementFormatIdentifier.ANDROID_KEY
            (Some (sample_credential (Some sample_key))))
         sample_auth_data sample_client_data_hash)
  = (Raise (Exn AttributeError "'bytes' object has no attribute 'public_key'"),
     []).
Proof.
  apply (@attest_android_key_needs_certificate_object sample_crypto
           (Some ES256_name) (Some [Byte.x30]) [X5cBytes sample_pem]).
  intros cert rest Heq. discriminate Heq.
Defined.

Lemma attest_android_key_unsupported_algorithm_witness :
  run (attest (crypto := sample_crypto)
         (AndroidKeyAttestationStatement (Some OKP_name) (Some [Byte.x30])
                                         [X5cCertificate sample_certificate])
         (sample_object sample_android_key
            AttestationStatementFormatIdentifier.ANDROID_KEY
            (Some (sample_credential (Some sample_key))))
         sample_auth_data sample_client_data_hash)
  = (Raise (Exn ValidationError "Unsupported hashing algorithm OKP"),
     [Call_public_key sample_certificate]).
Proof.
  apply (@attest_android_key_unsupported_algorithm sample_crypto OKP_name
           (Some [Byte.x30]) sample_certificate []
           (EllipticCurvePublicKey SECP256R1 sample_pem [])).
  - reflexivity.
  - apply (bool_decide_unpack _). vm_compute. reflexivity.
Defined.

Lemma attest_android_key_algorithm_selection_witness :
  ∃ h (r : result attest_return) (tr : list lib_call),
    ("ES384", h) ∈ android_key_hash_args
    ∧ run (attest (crypto := sample_crypto)
             (AndroidKeyAttestationStatement
                (Some {| em_enum := "COSEAlgorithmIdentifier.Value";
                         em_name := "ES384"; em_value := PyInt (-35) |})
                (Some [Byte.x30]) [X5cCertificate sample_certificate])
             (sample_object sample_android_key
                AttestationStatementFormatIdentifier.ANDROID_KEY
                (Some (sample_credential (Some sample_key))))
             sample_auth_data sample_client_data_hash)
      = (r, Call_public_key sample_certificate
            :: Call_verify (EllipticCurvePublicKey SECP256R1 sample_pem [])
                 (Some [Byte.x30])
                 (sample_auth_data ++ sample_client_data_hash)%list h
            :: tr).
Proof.
  apply (@attest_android_key_algorithm_selection sample_crypto (PyInt (-35))
           {| em_enum := "COSEAlgorithmIdentifier.Value";
              em_name := "ES384"; em_value := PyInt (-35) |}
           (Some [Byte.x30]) sample_certificate []
           (EllipticCurvePublicKey SECP256R1 sample_pem [])).
  - reflexivity.
  - reflexivity.
Defined.

Lemma attest_android_key_invalid_signature_witness :
  run (attest (crypto := sample_crypto)
         (AndroidKeyAttestationStatement (Some ES256_name) (Some [Byte.x30])
                                         [X5cCertificate sample_certificate])
         (sample_object sample_android_key
            AttestationStatementFormatIdentifier.ANDROID_KEY
            (Some (sample_credential (Some sample_key))))
         sample_auth_data sample_client_data_hash)
  = (Raise (Exn VerificationError
              "Android Key verification failed: invalid signature"),
     [Call_public_key sample_certificate;
      Call_verify (EllipticCurvePublicKey SECP256R1 sample_pem [])
        (Some [Byte.x30]) (sample_auth_data ++ sample_client_data_hash)%list
        (HashClass SHA256)]).
Proof.
  apply (@attest_android_key_invalid_signature sample_crypto ES256_name
           (Some [Byte.x30]) sample_certificate []
           (EllipticCurvePublicKey SECP256R1 sample_pem [])
           (HashClass SHA256)).
  - reflexivity.
  - apply list_elem_of_here.
  - reflexivity.
Defined.

Lemma attest_android_key_key_mismatch_witness :
  run (attest (crypto := sample_crypto) sample_android_key
         (sample_object sample_android_key
            AttestationStatementFormatIdentifier.ANDROID_KEY
            (Some (sample_credential (Some sample_okp_key))))
         sample_auth_data sample_client_data_hash)
  = (Raise (Exn ValidationError android_mismatch_message),
     [Call_public_key sample_certificate;
      Call_verify (EllipticCurvePublicKey SECP256R1 sample_pem [])
        (Some (sample_auth_data ++ sample_client_data_hash)%list)
        (sample_auth_data ++ sample_client_data_hash)%list
        (HashClass SHA256);
      Call_cryptography_public_key (Some sample_okp_key)]).
Proof.
  apply (@attest_android_key_key_mismatch sample_crypto ES256_name
           (Some (sample_auth_data ++ sample_client_data_hash)%list)
           sample_certificate []
           (EllipticCurvePublicKey SECP256R1 sample_pem [])
           (HashClass SHA256) _
           (sample_credential (Some sample_okp_key))
           (Ed25519PublicKey sample_pem)).
  - reflexivity.
  - apply list_elem_of_here.
  - reflexivity.
  - reflexivity.
  - reflexivity.
  - reflexivity.
Defined.

Lemma attest_android_key_completes_only_if_witness :
  ∃ cert rest k m h (a : AttestedCredentialData) (cpk : PublicKeyObject),
    [X5cCertificate sample_certificate] = X5cCertificate cert :: rest
    ∧ public_key (Cryptography := sample_crypto) cert = Ok k
    ∧ Some ES256_name = Some m
    ∧ (em_name m, h) ∈ android_key_hash_args
    ∧ verify (Cryptography := sample_crypto) k
        (Some (sample_auth_data ++ sample_client_data_hash)%list)
        (sample_auth_data ++ sample_client_data_hash)%list h = Verified
    ∧ Some (sample_credential (Some sample_key)) = Some a
    ∧ cryptography_public_key (Cryptography := sample_crypto)
        (credential_public_key a) = Ok cpk
    ∧ public_key_ne (Cryptography := sample_crypto) cpk k = false
    ∧ [Call_public_key sample_certificate;
       Call_verify (EllipticCurvePublicKey SECP256R1 sample_pem [])
         (Some (sample_auth_data ++ sample_client_data_hash)%list)
         (sample_auth_data ++ sample_client_data_hash)%list
         (HashClass SHA256);
       Call_cryptography_public_key (Some sample_key)]
      = [Call_public_key cert;
         Call_verify k
           (Some (sample_auth_data ++ sample_client_data_hash)%list)
           (sample_auth_data ++ sample_client_data_hash)%list h;
         Call_cryptography_public_key (credential_public_key a)].
Proof.
  apply (@attest_android_key_completes_only_if sample_crypto
           (Some ES256_name)
           (Some (sample_auth_data ++ sample_client_data_hash)%list)
           [X5cCertificate sample_certificate]
           (sample_object sample_android_key
              AttestationStatementFormatIdentifier.ANDROID_KEY
              (Some (sample_credential (Some sample_key))))
           sample_auth_data sample_client_data_hash ReturnNone).
  vm_compute. reflexivity.
Defined.

Lemma attest_android_key_completes_if_witness :
  run (attest (crypto := sample_crypto) sample_android_key
         (sample_object sample_android_key
            AttestationStatementFormatIdentifier.ANDROID_KEY
            (Some (sample_credential (Some sample_key))))
         sample_auth_data sample_client_data_hash)
  = (Ok ReturnNone,
     [Call_public_key sample_certificate;
      Call_verify (EllipticCurvePublicKey SECP256R1 sample_pem [])
        (Some (sample_auth_data ++ sample_client_data_hash)%list)
        (sample_auth_data ++ sample_client_data_hash)%list
        (HashClass SHA256);
      Call_cryptography_public_key (Some sample_key)]).
Proof.
  apply (@attest_android_key_completes_if sample_crypto ES256_name
           (Some (sample_auth_data ++ sample_client_data_hash)%list)
           sample_certificate []
           (EllipticCurvePublicKey SECP256R1 sample_pem [])
           (HashClass SHA256) _
           (sample_credential (Some sample_key))
           (EllipticCurvePublicKey SECP256R1 sample_pem [])).
  - reflexivity.
  - apply list_elem_of_here.
  - reflexivity.
  - reflexivity.
  - reflexivity.
  - reflexivity.
Defined.

Lemma attest_returns_no_trust_witness :
  type_of (NoneAttestationStatement None None) = NoneAttestationStatement_cls
  ∧ AttestationType.NONE = AttestationType.NONE
  ∧ @None (list Certificate) = None
  ∧ @nil lib_call = [].
Proof.
  apply (@attest_returns_no_trust sample_crypto
           (NoneAttestationStatement None None)
           (sample_object (NoneAttestationStatement None None)
              AttestationStatementFormatIdentifier.NONE None)
           sample_auth_data sample_client_data_hash).
  reflexivity.
Defined.

Lemma dual_enum_call_unknown_value_witness :
  NameValueEnumsContainer.__call__ COSEAlgorithmIdentifier (PyStr "ES1024")
  = Raise (Exn ValueError "ES1024").
Proof.
  apply (dual_enum_call_unknown_value COSEAlgorithmIdentifier
                                      (PyStr "ES1024")).
  - apply list_elem_of_here.
  - reflexivity.
  - vm_compute. repeat constructor; discriminate.
Defined.

Lemma dual_enum_call_round_trip_witness :
  let m := {| em_enum := "COSEKeyType.Value"; em_name := "EC2";
              em_value := PyInt 2 |} in
  em_value m = PyInt 2
  ∧ em_enum m = enum_qualname (Value COSEKeyType)
  ∧ NameValueEnumsContainer.__call__ COSEKeyType (em_value m) = Ok m
  ∧ ∃ m', NameValueEnumsContainer.__getitem__ COSEKeyType
            (PyStr (em_name m)) = Ok m'
          ∧ em_name m' = em_name m.
Proof.
  apply (dual_enum_call_round_trip COSEKeyType (PyInt 2)).
  - apply list_elem_of_further, list_elem_of_here.
  - reflexivity.
Defined.

Lemma dual_enum_name_and_code_members_differ_witness :
  {| em_enum := "EC2KeyType.Name"; em_name := "P_256";
     em_value := PyStr "P-256" |}
  ≠ {| em_enum := "EC2KeyType.Value"; em_name := "P_256";
       em_value := PyInt 1 |}
  ∧ PyStr "P-256" = PyStr "P-256"
  ∧ type_is_str (PyInt 1) = false.
Proof.
  apply (dual_enum_name_and_code_members_differ EC2KeyType "P-256" 1);
    reflexivity.
Defined.

Lemma dual_enum_tables_aligned_witness :
  (enum_members (Name COSEKeyOperation)).*1
  = (enum_members (Value COSEKeyOperation)).*1
  ∧ NoDup (enum_members (Name COSEKeyOperation)).*1
  ∧ NoDup (enum_members (Name COSEKeyOperation)).*2
  ∧ NoDup (enum_members (Value COSEKeyOperation)).*2
  ∧ (logical_members COSEKeyOperation).*1.*1
    = (enum_members (Name COSEKeyOperation)).*1.
Proof.
  apply (dual_enum_tables_aligned COSEKeyOperation).
  do 2 apply list_elem_of_further. apply list_elem_of_here.
Defined.

Lemma construct_rejects_ill_formed_call_witness :
  ∃ msg, construct FIDOU2FAttestationStatement_cls []
           (list_to_map [("alg", PyNone); ("sig", PyBytes [Byte.x30])])
         = Raise (Exn TypeError msg).
Proof.
  apply construct_rejects_ill_formed_call.
  right. right. exists "x5c". split.
  - vm_compute. do 2 apply list_elem_of_further. apply list_elem_of_here.
  - apply (bool_decide_unpack _). vm_compute. reflexivity.
Defined.

Lemma construct_sets_attributes_witness :
  construct FIDOU2FAttestationStatement_cls []
    (keyword_arguments (keywords FIDOU2FAttestationStatement_cls)
                       (λ n, PyStr n))
  = Ok {| inst_class := FIDOU2FAttestationStatement_cls;
          inst_attrs :=
            keyword_arguments (keywords FIDOU2FAttestationStatement_cls)
                              (λ n, PyStr n) |}.
Proof.
  apply (construct_sets_attributes FIDOU2FAttestationStatement_cls).
  reflexivity.
Defined.

Lemma construct_defaults_witness :
  construct NoneAttestationStatement_cls []
    (list_to_map (omap id [pair "alg" <$> None;
                           pair "sig" <$> Some (PyBytes [Byte.x30])]))
  = Ok {| inst_class := NoneAttestationStatement_cls;
          inst_attrs := {[ "alg" := default PyNone None;
                           "sig" := default PyNone
                                      (Some (PyBytes [Byte.x30])) ]} |}.
Proof.
  apply (construct_defaults NoneAttestationStatement_cls).
  right. reflexivity.
Defined.

Lemma attest_android_key_reads_only_witness :
  run (attest (crypto := sample_crypto) sample_android_key
         (sample_object sample_android_key
            AttestationStatementFormatIdentifier.ANDROID_KEY
            (Some (sample_credential (Some sample_key))))
         sample_auth_data sample_client_data_hash)
  = run (attest (crypto := sample_crypto)
           (AndroidKeyAttestationStatement
              (Some {| em_enum := "COSEAlgorithmIdentifier.Value";
                       em_name := "ES256"; em_value := PyInt (-7) |})
              (Some (sample_auth_data ++ sample_client_data_hash)%list)
              [X5cCertificate sample_certificate; X5cBytes []])
           {| AttestationObject.auth_data :=
                {| rp_id_hash := []; flags := 0; sign_count := 7;
                   attested_credential_data :=
                     Some {| aaguid := []; credential_id_length := 0;
                             credential_id := [];
                             credential_public_key := Some sample_key;
                             extensions := None |} |};
              AttestationObject.fmt :=
                AttestationStatementFormatIdentifier.PACKED;
              AttestationObject.att_stmt := sample_packed |}
           sample_auth_data sample_client_data_hash).
Proof.
  apply (@attest_android_key_reads_only sample_crypto); reflexivity.
Defined.
